(** * splitmp3: cutting an audio file at silences

    A shallow embedding of [splitmp3.py] and the properties of its silence
    parser, its segment planner and its segment writer.

    Conventions of the embedding.
    - Python [float]s are binary64 numbers: the primitive [float] of Rocq,
      with the operations [-], [*], [<] and [<=] of IEEE 754.  The integer
      literal [0] the script uses for times is embedded as [+0.0]; on every
      operation the script applies to it (subtraction from a float, [<] and
      [>=] against floats) the two agree, and only its text in a command
      line differs, which nothing below depends on.
    - Python [int]s are [Z]; [int * float] converts the integer first, which
      raises [OverflowError] when it is too large.
    - Text is [string]; the captured diagnostic stream is kept as the list of
      its lines, the value of [stderr.splitlines()].
    - An uncaught exception is an explicit outcome, [Raise]; the external
      engine is a function from a command line to a completed process, and
      what the script runs and prints is collected in a log.  A missing
      engine binary and a directory that cannot be made are outside the
      embedding, and so is the reading of the command line. *)

From Stdlib Require Import ZArith List String Ascii Bool Arith Lia Floats.
Import ListNotations.

(** ** Outcomes *)

Inductive exn : Set := ValueError | IndexError | OverflowError.

Inductive result (A : Type) : Type :=
| Ok (a : A)
| Raise (e : exn).

Arguments Ok {A} a.
Arguments Raise {A} e.

Definition rbind {A B : Type} (r : result A) (k : A -> result B) : result B :=
  match r with
  | Ok a => k a
  | Raise e => Raise e
  end.

(** ** Text *)

Module Text.

Open Scope string_scope.

(** [sub in s] *)
Fixpoint py_in (sub s : string) : bool :=
  if String.prefix sub s then true
  else match s with
       | EmptyString => false
       | String _ s' => py_in sub s'
       end.

(** [str.isspace] on the code points below 256. *)
Definition is_space (c : ascii) : bool :=
  let n := nat_of_ascii c in
  ((9 <=? n) && (n <=? 13) || (28 <=? n) && (n <=? 32)
   || (n =? 133) || (n =? 160))%nat.

Definition flush (word : string) : list string :=
  match word with
  | EmptyString => []
  | _ => [word]
  end.

(** [s.split()]: the maximal runs of characters that are not white space;
    [word] is the run being read. *)
Fixpoint split_from (word s : string) : list string :=
  match s with
  | EmptyString => flush word
  | String c s' =>
      if is_space c then flush word ++ split_from EmptyString s'
      else split_from (word ++ String c EmptyString) s'
  end.

Definition split (s : string) : list string := split_from EmptyString s.

Fixpoint lstrip (s : string) : string :=
  match s with
  | String c s' => if is_space c then lstrip s' else s
  | EmptyString => EmptyString
  end.

Fixpoint rstrip (s : string) : string :=
  match s with
  | EmptyString => EmptyString
  | String c s' =>
      match rstrip s' with
      | EmptyString => if is_space c then EmptyString else String c EmptyString
      | t => String c t
      end
  end.

(** [s.strip()] *)
Definition strip (s : string) : string := rstrip (lstrip s).

(** [parts.index(x)]: the first position of [x]; [None] is ValueError. *)
Fixpoint index (x : string) (parts : list string) : option nat :=
  match parts with
  | [] => None
  | p :: rest =>
      if String.eqb p x then Some O
      else option_map S (index x rest)
  end.

Definition digit (d : nat) : ascii := ascii_of_nat (48 + d).

(** The decimal digits of [n], most significant first; [fuel] bounds the
    number of digits. *)
Fixpoint digits (fuel n : nat) : string :=
  match fuel with
  | O => EmptyString
  | S fuel' =>
      if (n <? 10)%nat then String (digit n) EmptyString
      else digits fuel' (n / 10) ++ String (digit (n mod 10)) EmptyString
  end.

(** [str(n)] for a natural number. *)
Definition str_nat (n : nat) : string := digits (S n) n.

(** [str(z)] for an integer. *)
Definition str_int (z : Z) : string :=
  if (z <? 0)%Z then "-" ++ str_nat (Z.abs_nat z) else str_nat (Z.abs_nat z).

Fixpoint zeros (k : nat) : string :=
  match k with
  | O => EmptyString
  | S k' => String "0" (zeros k')
  end.

(** [f"{n:0{width}d}"] for a natural number. *)
Definition format_0d (width n : nat) : string :=
  zeros (width - String.length (str_nat n)) ++ str_nat n.

End Text.

(** ** Numbers *)

(** The literal [0.8]: the binary64 number nearest to 8/10. *)
Definition point_eight : float := 0x1.999999999999ap-1%float.

(** [float(z)] for an integer: rounded to nearest, ties to even;
    OverflowError when the rounded value is not finite. *)
Definition float_of_int (z : Z) : result float :=
  match binary_normalize prec emax z 0 false with
  | S754_infinity _ => Raise OverflowError
  | x => Ok (SF2Prim x)
  end.

(** [z * x] for an integer [z] and a float [x]. *)
Definition int_mul_float (z : Z) (x : float) : result float :=
  rbind (float_of_int z) (fun f => Ok (f * x)%float).

(** ** The Python runtime and the external engine *)

(** The functions of the Python runtime the script calls and this
    development does not define. *)
Class Builtins : Type := {
  (** [float(s)]; [None] is ValueError *)
  py_float : string -> option float;
  (** [str(x)] for a float *)
  str_float : float -> string;
  (** [os.path.join(a, *p)] *)
  path_join : string -> list string -> string;
  (** [os.path.basename(p)] *)
  path_basename : string -> string;
  (** [os.path.splitext(p)[0]] *)
  path_splitext_root : string -> string
}.

(** What [subprocess.run] captures of a finished process. *)
Record CompletedProcess : Type := {
  returncode : Z;
  stdout : string;
  stderr_lines : list string
}.

(** The engine (ffmpeg, ffprobe): the files it reads do not change during a
    run, so what a command answers is a function of the command line. *)
Definition Engine : Type := list string -> CompletedProcess.

Inductive message : Type :=
| Created_segment (output_file : string) (duration : float)
| Error_creating_segment (command : list string)
| Error_during_ffmpeg (command : list string)
| Error_getting_duration (command : list string)
| Captured_stdout (command : list string)
| Captured_stderr (command : list string).

Inductive event : Type :=
| Makedirs (path : string)
| Run (command : list string)
| Print (m : message).

(** A computation of the script: what it ran and printed, in order, and its
    outcome. *)
Definition Py (A : Type) : Type := (list event * result A)%type.

Definition ret {A : Type} (a : A) : Py A := ([], Ok a).

Definition bind {A B : Type} (m : Py A) (k : A -> Py B) : Py B :=
  match m with
  | (log, Ok a) => let '(log', r) := k a in (log ++ log', r)
  | (log, Raise e) => (log, Raise e)
  end.

Definition emit (e : event) : Py unit := ([e], Ok tt).

Definition lift {A : Type} (r : result A) : Py A := ([], r).

Declare Scope py_scope.
Delimit Scope py_scope with py.
Notation "x <- m ;; k" := (bind m (fun x => k))
  (at level 61, m at next level, right associativity) : py_scope.
Notation "' p <- m ;; k" := (bind m (fun p => k))
  (at level 61, p pattern, m at next level, right associativity) : py_scope.
Notation "m ;;; k" := (bind m (fun _ => k))
  (at level 61, right associativity) : py_scope.

(** The commands of a log. *)
Fixpoint commands (log : list event) : list (list string) :=
  match log with
  | [] => []
  | Run c :: log' => c :: commands log'
  | _ :: log' => commands log'
  end.

(** ** Data of the script *)

(** A silent period, [{"start": ..., "end": ...}]. *)
Record silence : Type := { start : float; end_ : float }.

(** A planned segment, [(segment_start, segment_end)]. *)
Definition segment : Type := (float * float)%type.

(** ** The script *)

Section Script.

Context {builtins : Builtins}.
Variable engine : Engine.

Open Scope string_scope.
Open Scope py_scope.

(** [subprocess.run(command, check=True, ...)]: [None] is
    CalledProcessError, which every caller catches. *)
Definition subprocess_run (command : list string) : Py (option CompletedProcess) :=
  emit (Run command) ;;;
  let cp := engine command in
  ret (if (returncode cp =? 0)%Z then Some cp else None).

Definition get_audio_duration_command (input_file : string) : list string :=
  ["ffprobe"; "-v"; "error"; "-show_entries"; "format=duration";
   "-of"; "default=noprint_wrappers=1:nokey=1"; input_file].

Definition get_audio_duration (input_file : string) : Py float :=
  let command := get_audio_duration_command input_file in
  r <- subprocess_run command ;;
  match r with
  | Some cp =>
      match py_float (Text.strip (stdout cp)) with
      | Some d => ret d
      | None => lift (Raise ValueError)
      end
  | None =>
      emit (Print (Error_getting_duration command)) ;;;
      emit (Print (Captured_stderr command)) ;;;
      ret 0%float
  end.

(** *** find_silent_periods *)

Definition find_silent_periods_command (input_file : string)
    (min_silence_duration : float) (silence_threshold : Z) : list string :=
  ["ffmpeg"; "-i"; input_file;
   "-af"; "silencedetect=noise=" ++ Text.str_int silence_threshold
          ++ "dB:d=" ++ str_float min_silence_duration;
   "-f"; "null"; "-"].

(** [float(parts[parts.index(key) + 1])] with [parts = line.split()] *)
Definition marker_value (key line : string) : result float :=
  let parts := Text.split line in
  match Text.index key parts with
  | None => Raise ValueError
  | Some i =>
      match nth_error parts (i + 1) with
      | None => Raise IndexError
      | Some word =>
          match py_float word with
          | Some t => Ok t
          | None => Raise ValueError
          end
      end
  end.

(** The state of the scan: [start_time] and [silence_periods]. *)
Definition scan_state : Type := (option float * list silence)%type.

(** The body of the loop over the lines. *)
Definition scan_line (st : scan_state) (line : string) : result scan_state :=
  let '(start_time, silence_periods) := st in
  if Text.py_in "silencedetect" line then
    if Text.py_in "silence_start:" line then
      rbind (marker_value "silence_start:" line) (fun t =>
      Ok (Some t, silence_periods))
    else if Text.py_in "silence_end:" line then
      match start_time with
      | Some s =>
          rbind (marker_value "silence_end:" line) (fun end_time =>
          Ok (None, (silence_periods ++ [{| start := s; end_ := end_time |}])%list))
      | None => Ok st
      end
    else Ok st
  else Ok st.

Fixpoint scan_lines (st : scan_state) (lines : list string) : result scan_state :=
  match lines with
  | [] => Ok st
  | line :: rest => rbind (scan_line st line) (fun st' => scan_lines st' rest)
  end.

(** The lines of the diagnostic stream to the silent periods: the loop,
    from [start_time = None] and [silence_periods = []], and the return. *)
Definition parse_silence_periods (lines : list string) : result (list silence) :=
  rbind (scan_lines (None, []) lines) (fun st => Ok (snd st)).

(** [None] is the value the script returns when the engine fails. *)
Definition find_silent_periods (input_file : string)
    (min_silence_duration : float) (silence_threshold : Z)
    : Py (option (list silence)) :=
  let command :=
    find_silent_periods_command input_file min_silence_duration silence_threshold in
  r <- subprocess_run command ;;
  match r with
  | Some cp =>
      silence_periods <- lift (parse_silence_periods (stderr_lines cp)) ;;
      ret (Some silence_periods)
  | None =>
      emit (Print (Error_during_ffmpeg command)) ;;;
      emit (Print (Captured_stdout command)) ;;;
      emit (Print (Captured_stderr command)) ;;;
      ret None
  end.

(** *** create_segment *)

(** [str(end_time)] for an optional float. *)
Definition str_optional (end_time : option float) : string :=
  match end_time with
  | Some t => str_float t
  | None => "None"
  end.

Definition create_segment_command (input_file output_file : string)
    (start_time : float) (end_time : option float) : list string :=
  ["ffmpeg"; "-ss"; str_float start_time; "-to"; str_optional end_time;
   "-i"; input_file; "-c:a"; "libmp3lame"; "-y"; output_file].

Definition create_segment (input_file output_file : string)
    (start_time : float) (end_time : option float) : Py bool :=
  let command := create_segment_command input_file output_file start_time end_time in
  r <- subprocess_run command ;;
  match r with
  | Some _ =>
      total <- match end_time with
               | Some t => ret t
               | None => get_audio_duration input_file
               end ;;
      emit (Print (Created_segment output_file (total - start_time)%float)) ;;;
      ret true
  | None =>
      emit (Print (Error_creating_segment command)) ;;;
      emit (Print (Captured_stderr command)) ;;;
      ret false
  end.

(** *** segment_audio *)

(** The loop over the silent periods: [segment_start] and [segments]
    after it. *)
Fixpoint cut_loop (target_segment_length : Z) (silence_periods : list silence)
    (segment_start : float) (segments : list segment)
    : result (float * list segment) :=
  match silence_periods with
  | [] => Ok (segment_start, segments)
  | silence :: rest =>
      rbind (int_mul_float target_segment_length point_eight) (fun threshold =>
      if (threshold <=? end_ silence - segment_start)%float then
        cut_loop target_segment_length rest (end_ silence)
                 (segments ++ [(segment_start, end_ silence)])%list
      else
        cut_loop target_segment_length rest segment_start segments)
  end.

(** The remaining part of the file, for the duration the probe gave. *)
Definition add_remainder (duration : float) (cut : float * list segment)
    : list segment :=
  let '(segment_start, segments) := cut in
  if (segment_start <? duration)%float
  then (segments ++ [(segment_start, duration)])%list
  else segments.

(** The planner: the segments of a file of the given duration. *)
Definition plan_segments (silence_periods : list silence) (duration : float)
    (target_segment_length : Z) : result (list segment) :=
  rbind (cut_loop target_segment_length silence_periods 0%float [])
        (fun cut => Ok (add_remainder duration cut)).

Definition segment_name (num_digits segment_num : nat) : string :=
  Text.format_0d num_digits segment_num ++ ".mp3".

(** The loop over [enumerate(segments, start=segment_num)]; what
    [create_segment] returns is not looked at. *)
Fixpoint write_segments (input_file output_subdir : string)
    (num_digits segment_num : nat) (segments : list segment) : Py unit :=
  match segments with
  | [] => ret tt
  | (segment_start, segment_end) :: rest =>
      let output_file :=
        path_join output_subdir [segment_name num_digits segment_num] in
      create_segment input_file output_file segment_start (Some segment_end) ;;;
      write_segments input_file output_subdir num_digits (S segment_num) rest
  end.

Definition output_subdir_of (input_file output_dir : string) : string :=
  path_join output_dir [path_splitext_root (path_basename input_file)].

Definition segment_audio (input_file output_dir : string)
    (target_segment_length : Z) (min_silence_duration : float)
    (silence_threshold : Z) : Py unit :=
  let output_subdir := output_subdir_of input_file output_dir in
  emit (Makedirs output_subdir) ;;;
  found <- find_silent_periods input_file min_silence_duration silence_threshold ;;
  match found with
  | None =>
      let output_file := path_join output_subdir [input_file; ".mp3"] in
      duration <- get_audio_duration input_file ;;
      create_segment input_file output_file 0%float (Some duration) ;;;
      ret tt
  | Some silence_periods =>
      '(segment_start, segments) <-
        lift (cut_loop target_segment_length silence_periods 0%float []) ;;
      duration <- get_audio_duration input_file ;;
      segments <-
        (if (segment_start <? duration)%float
         then duration' <- get_audio_duration input_file ;;
              ret (segments ++ [(segment_start, duration')])%list
         else ret segments) ;;
      let num_segments := List.length segments in
      let num_digits := String.length (Text.str_nat num_segments) in
      write_segments input_file output_subdir num_digits 1 segments
  end.

End Script.

(** ** The algorithms in the words of the specification *)

Module Spec.

(** *** The greedy threshold cut

    Start with [cursor = 0] and an empty plan; for each silence in order,
    when [silence.end - cursor >= 0.8 * target] append
    [(cursor, silence.end)] and move the cursor to [silence.end], otherwise
    skip the silence; at the end append [(cursor, duration)] when
    [cursor < duration]. *)

Definition greedy_step (target : float) (st : float * list segment)
    (s : silence) : float * list segment :=
  let '(cursor, plan) := st in
  if (point_eight * target <=? end_ s - cursor)%float
  then (end_ s, plan ++ [(cursor, end_ s)])
  else st.

Definition greedy_plan (silences : list silence) (duration target : float)
    : list segment :=
  let '(cursor, plan) := fold_left (greedy_step target) silences (0%float, []) in
  if (cursor <? duration)%float then plan ++ [(cursor, duration)] else plan.

(** *** Pairing the markers of the diagnostic stream

    A start marker records the pending start, over any earlier one; an end
    marker with a pending start gives the interval and clears the pending
    start, and without one is ignored; a pending start left at the end
    gives nothing. *)

Inductive marker : Type :=
| Silence_start (t : float)
| Silence_end (t : float)
| No_marker.

Fixpoint pair_markers (pending : option float) (ms : list marker)
    : list silence :=
  match ms with
  | [] => []
  | Silence_start t :: rest => pair_markers (Some t) rest
  | Silence_end t :: rest =>
      match pending with
      | Some s => {| start := s; end_ := t |} :: pair_markers None rest
      | None => pair_markers None rest
      end
  | No_marker :: rest => pair_markers pending rest
  end.

End Spec.

(** The marker a line of the diagnostic stream stands for, as the scan
    tells them apart. *)
Definition read_marker {builtins : Builtins} (line : string) : result Spec.marker :=
  if Text.py_in "silencedetect" line then
    if Text.py_in "silence_start:" line then
      rbind (marker_value "silence_start:" line) (fun t => Ok (Spec.Silence_start t))
    else if Text.py_in "silence_end:" line then
      rbind (marker_value "silence_end:" line) (fun t => Ok (Spec.Silence_end t))
    else Ok Spec.No_marker
  else Ok Spec.No_marker.

Fixpoint read_markers {builtins : Builtins} (lines : list string)
    : result (list Spec.marker) :=
  match lines with
  | [] => Ok []
  | line :: rest =>
      rbind (read_marker line) (fun m =>
      rbind (read_markers rest) (fun ms => Ok (m :: ms)))
  end.

(** ** A runtime and engines to run the script on *)

Module Sample.

Open Scope string_scope.

Definition digit_of (c : ascii) : option Z :=
  let n := nat_of_ascii c in
  if ((48 <=? n) && (n <=? 57))%nat then Some (Z.of_nat (n - 48)) else None.

(** [num / den] for the digits read so far; [den] once past the point. *)
Fixpoint read_decimal (s : string) (num : Z) (den : option Z)
    : option (Z * Z) :=
  match s with
  | EmptyString =>
      Some (num, match den with Some d => d | None => 1%Z end)
  | String c s' =>
      if Ascii.eqb c "." then
        match den with
        | None => read_decimal s' num (Some 1%Z)
        | Some _ => None
        end
      else
        match digit_of c with
        | Some d => read_decimal s' (10 * num + d)%Z (option_map (Z.mul 10) den)
        | None => None
        end
  end.

(** Plain decimals such as [296.0]. *)
Definition decimal_float (s : string) : option float :=
  match s with
  | EmptyString => None
  | _ =>
      match read_decimal s 0 None with
      | Some (n, d) =>
          match float_of_int n, float_of_int d with
          | Ok a, Ok b => Some (a / b)%float
          | _, _ => None
          end
      | None => None
      end
  end.

Fixpoint decimal (fuel : nat) (z : Z) : string :=
  match fuel with
  | O => EmptyString
  | S fuel' =>
      if (z <? 10)%Z then String (Text.digit (Z.to_nat z)) EmptyString
      else decimal fuel' (z / 10)
           ++ String (Text.digit (Z.to_nat (z mod 10))) EmptyString
  end.

(** A one-to-one rendering of floats: mantissa and binary exponent. *)
Definition render_float (x : float) : string :=
  match Prim2SF x with
  | S754_zero false => "0.0"
  | S754_zero true => "-0.0"
  | S754_infinity false => "inf"
  | S754_infinity true => "-inf"
  | S754_nan => "nan"
  | S754_finite s m e =>
      (if s then "-" else "") ++ decimal 64 (Zpos m) ++ "p" ++ Text.str_int e
  end.

Fixpoint ends_with_slash (s : string) : bool :=
  match s with
  | EmptyString => false
  | String c EmptyString => Ascii.eqb c "/"
  | String _ s' => ends_with_slash s'
  end.

Definition join2 (a b : string) : string :=
  if String.prefix "/" b then b
  else if String.eqb a "" || ends_with_slash a then a ++ b
  else a ++ "/" ++ b.

Definition posix_join (a : string) (p : list string) : string :=
  fold_left join2 p a.

Fixpoint basename_from (name s : string) : string :=
  match s with
  | EmptyString => name
  | String c s' =>
      if Ascii.eqb c "/" then basename_from "" s'
      else basename_from (name ++ String c "") s'
  end.

Definition posix_basename (p : string) : string := basename_from "" p.

(** The position of the last dot that has a character other than a dot
    before it, reading a name without directories. *)
Fixpoint last_dot (s : string) (pos : nat) (named : bool) : option nat :=
  match s with
  | EmptyString => None
  | String c s' =>
      if Ascii.eqb c "." then
        match last_dot s' (S pos) named with
        | Some k => Some k
        | None => if named then Some pos else None
        end
      else last_dot s' (S pos) true
  end.

Definition splitext_root (p : string) : string :=
  match last_dot p 0 false with
  | Some k => String.substring 0 k p
  | None => p
  end.

#[export] Instance builtins : Builtins := {
  py_float := decimal_float;
  str_float := render_float;
  path_join := posix_join;
  path_basename := posix_basename;
  path_splitext_root := splitext_root
}.

Definition tool (command : list string) : string :=
  match command with
  | t :: _ => t
  | [] => ""
  end.

Definition detection_lines : list string :=
  ["Input #0, mov,mp4,m4a, from 'book.m4a':";
   "[silencedetect @ 0x5581] silence_start: 295.0";
   "[silencedetect @ 0x5581] silence_end: 296.0 | silence_duration: 1.0";
   "size=N/A time=00:09:58.00 bitrate=N/A";
   "[silencedetect @ 0x5581] silence_start: 598.0";
   "[silencedetect @ 0x5581] silence_end: 599.5 | silence_duration: 1.5";
   "[silencedetect @ 0x5581] silence_start: 699.0"].

Definition finished (code : Z) (out : string) (err : list string)
    : CompletedProcess :=
  {| returncode := code; stdout := out; stderr_lines := err |}.

Definition newline : string := String (ascii_of_nat 10) "".

(** An engine on a file of 700 seconds with two silences and a trailing
    one; writing the file named by [broken] fails. *)
Definition engine (broken : string) : Engine := fun command =>
  if String.eqb (tool command) "ffprobe" then finished 0 ("700.0" ++ newline) []
  else if String.eqb (nth 1 command "") "-i" then finished 0 "" detection_lines
  else if String.eqb (last command "") broken then finished 1 "" ["write failed"]
  else finished 0 "" [].


(** The silences of [detection_lines]; the trailing start has no end. *)
Definition silences : list silence :=
  [{| start := 295; end_ := 296 |}; {| start := 598; end_ := 599.5 |}].

(** The plan of these silences in a file of 700 seconds, for a target of
    300. *)
Definition plan : list segment :=
  [(0, 296); (296, 599.5); (599.5, 700)]%float.

Definition input_file : string := "/in/book.m4a".

Definition output_dir : string := "/out".

End Sample.

(** ** Properties of plans *)

(** The body of the loop of the planner, for the threshold it computes. *)
Definition cut_step (threshold : float) (st : float * list segment)
    (s : silence) : float * list segment :=
  if (threshold <=? end_ s - fst st)%float
  then (end_ s, snd st ++ [(fst st, end_ s)])
  else st.

(** [tiles a plan b]: the segments of [plan] follow each other from [a] to
    [b], each starting where the one before ends. *)
Fixpoint tiles (a : float) (plan : list segment) (b : float) : Prop :=
  match plan with
  | [] => a = b
  | (s, e) :: rest => s = a /\ tiles e rest b
  end.

(** The last element of a list. *)
Fixpoint last_error {A : Type} (l : list A) : option A :=
  match l with
  | [] => None
  | [a] => Some a
  | _ :: rest => last_error rest
  end.


(** The segment ends after it starts. *)
Definition positive_length (seg : segment) : Prop :=
  (fst seg <? snd seg)%float = true.

(** The segment does not end before it starts. *)
Definition forward (seg : segment) : Prop :=
  (fst seg <=? snd seg)%float = true.

(** ** Observations of a run *)

(** The command that writes a numbered segment of the plan. *)
Definition segment_command {builtins : Builtins}
    (input_file output_subdir : string) (num_digits : nat)
    (numbered : nat * segment) : list string :=
  create_segment_command input_file
    (path_join output_subdir [segment_name num_digits (fst numbered)])
    (fst (snd numbered)) (Some (snd (snd numbered))).

(** ** Signs of binary64 numbers *)

(** Above zero: a positive finite number or [+inf]. *)
Definition SFpositive (x : spec_float) : bool :=
  match x with
  | S754_infinity false | S754_finite false _ _ => true
  | _ => false
  end.

(** A zero of either sign, or above zero. *)
Definition SFnonneg (x : spec_float) : bool :=
  match x with
  | S754_zero _ | S754_infinity false | S754_finite false _ _ => true
  | _ => false
  end.

(** ** Further observations *)

(** The segments of a plan with their numbers, from 1. *)
Definition numbered (plan : list segment) : list (nat * segment) :=
  combine (seq 1 (List.length plan)) plan.

(** A line the scan reads as the start of a silence. *)
Definition is_start_line (line : string) : bool :=
  Text.py_in "silencedetect" line && Text.py_in "silence_start:" line.

(** A line the scan reads as the end of a silence, when one is pending. *)
Definition is_end_line (line : string) : bool :=
  Text.py_in "silencedetect" line
  && negb (Text.py_in "silence_start:" line)
  && Text.py_in "silence_end:" line.

(** The number of lines that pass a test. *)
Definition count_lines (test : string -> bool) (lines : list string) : nat :=
  List.length (filter test lines).

(** One for a pending start, none without. *)
Definition pending_count (start_time : option float) : nat :=
  match start_time with
  | Some _ => 1
  | None => 0
  end.

(** The commands that write the segments of a plan, numbered from 1 on as
    many digits as the count of segments has. *)
Definition writer_commands {builtins : Builtins}
    (input_file output_subdir : string) (plan : list segment) : list (list string) :=
  map (segment_command input_file output_subdir
         (String.length (Text.str_nat (List.length plan))))
      (numbered plan).

(** The number a string of decimal digits writes, read after [acc]. *)
Fixpoint read_digits (acc : nat) (s : string) : nat :=
  match s with
  | EmptyString => acc
  | String c s' => read_digits (10 * acc + (nat_of_ascii c - 48)) s'
  end.

(** Every character is one of [0] to [9]. *)
Fixpoint all_digits (s : string) : bool :=
  match s with
  | EmptyString => true
  | String c s' =>
      ((48 <=? nat_of_ascii c) && (nat_of_ascii c <=? 57))%nat && all_digits s'
  end.

(** ** More engines to run the script on *)

Module Cases.

Open Scope string_scope.

(** An engine that answers the probe with [probe] and the detection with
    [detection], and writes every segment. *)
Definition engine_of (detection probe : CompletedProcess) : Engine := fun command =>
  if String.eqb (Sample.tool command) "ffprobe" then probe
  else if String.eqb (nth 1 command "") "-i" then detection
  else Sample.finished 0 "" [].

Definition good_probe : CompletedProcess :=
  Sample.finished 0 ("700.0" ++ Sample.newline) [].

Definition good_detection : CompletedProcess :=
  Sample.finished 0 "" Sample.detection_lines.

(** The lines of one silence. *)
Definition one_silence : list string :=
  ["[silencedetect @ 0x5581] silence_start: 295.0";
   "[silencedetect @ 0x5581] silence_end: 296.0 | silence_duration: 1.0"].

(** A start line whose key is glued to another character. *)
Definition glued_line : string := "[silencedetect @ 0x5581] xsilence_start: 598.0".

(** A start line that stops after the key. *)
Definition cut_line : string := "[silencedetect @ 0x5581] silence_start:".

Definition glued_engine : Engine :=
  engine_of (Sample.finished 0 "" (one_silence ++ [glued_line])) good_probe.

Definition cut_engine : Engine :=
  engine_of (Sample.finished 0 "" (one_silence ++ [cut_line])) good_probe.

(** The probe fails. *)
Definition unprobed_engine : Engine :=
  engine_of good_detection (Sample.finished 1 "" ["no such file"]).

(** The probe prints no number. *)
Definition unreadable_engine : Engine :=
  engine_of good_detection (Sample.finished 0 ("N/A" ++ Sample.newline) []).

(** The engine hears no silence. *)
Definition quiet_engine : Engine :=
  engine_of (Sample.finished 0 ""
               ["Input #0, mov,mp4,m4a, from 'book.m4a':";
                "size=N/A time=00:11:40.00 bitrate=N/A"])
            good_probe.

(** The silences of [Sample.silences] with other starts. *)
Definition moved_silences : list silence :=
  [{| start := 0; end_ := 296 |}; {| start := 297; end_ := 599.5 |}]%float.

(** Silences of a file of 100 seconds. *)
Definition early_silences : list silence :=
  [{| start := 40; end_ := 41 |}; {| start := 80; end_ := 82 |}]%float.

End Cases.

(** * Facts about binary64 arithmetic *)

Section Rounding.

Open Scope Z_scope.

Lemma digits2_size (p : positive) : digits2_pos p = Pos.size p.
Proof. induction p; cbn; congruence. Qed.

Lemma digits2_log2 (p : positive) : Zpos (digits2_pos p) = Z.log2 (Zpos p) + 1.
Proof.
  rewrite digits2_size. destruct p; cbn; try reflexivity; now rewrite Pos.add_1_r.
Qed.

Lemma iter_pos_nat {A : Type} (f : A -> A) (n : positive) (x : A) :
  iter_pos f n x = Nat.iter (Pos.to_nat n) f x.
Proof.
  revert x. induction n as [n IH|n IH|]; intros x; cbn [iter_pos].
  - rewrite !IH, Pos2Nat.inj_xI. 
    replace (S (2 * Pos.to_nat n))%nat with (Pos.to_nat n + (Pos.to_nat n + 1))%nat by lia.
    rewrite !Nat.iter_add. reflexivity.
  - rewrite !IH, Pos2Nat.inj_xO.
    replace (2 * Pos.to_nat n)%nat with (Pos.to_nat n + Pos.to_nat n)%nat by lia.
    rewrite Nat.iter_add. reflexivity.
  - reflexivity.
Qed.

Lemma shr_1_m (r : shr_record) : 0 <= shr_m r -> shr_m (shr_1 r) = Z.div2 (shr_m r).
Proof.
  destruct r as [m b s]. cbn [shr_m]. intros H.
  destruct m as [|[p|p|]|p]; cbn; try reflexivity; lia.
Qed.

Lemma shr_iter_m (n : nat) (r : shr_record) :
  0 <= shr_m r -> shr_m (Nat.iter n shr_1 r) = Z.shiftr (shr_m r) (Z.of_nat n).
Proof.
  intros H. induction n as [|n IH].
  - change (Nat.iter 0 shr_1 r) with r. symmetry. apply Z.shiftr_0_r.
  - rewrite Nat.iter_succ, shr_1_m.
    + rewrite IH, Nat2Z.inj_succ, Z.div2_spec, Z.shiftr_shiftr by lia.
      reflexivity.
    + rewrite IH. apply Z.shiftr_nonneg. exact H.
Qed.

Lemma shr_pos_m (r : shr_record) (e : Z) (p : positive) :
  0 <= shr_m r ->
  shr_m (fst (shr r e (Zpos p))) = Z.shiftr (shr_m r) (Zpos p).
Proof.
  intros H. cbn [shr fst]. rewrite iter_pos_nat, shr_iter_m by exact H.
  now rewrite positive_nat_Z.
Qed.

Lemma fexp_eq (x : Z) : fexp prec emax x = Z.max (x - 53) (-1074).
Proof. reflexivity. Qed.

Lemma shr_fexp_pos (q : positive) (ex : Z) :
  -1074 < Zpos (digits2_pos q) + ex ->
  ex <= fexp prec emax (Zpos (digits2_pos q) + ex) ->
  exists q',
    shr_m (fst (shr_fexp prec emax (Zpos q) ex loc_Exact)) = Zpos q'
    /\ snd (shr_fexp prec emax (Zpos q) ex loc_Exact)
       = fexp prec emax (Zpos (digits2_pos q) + ex)
    /\ Zpos (digits2_pos q') + fexp prec emax (Zpos (digits2_pos q) + ex)
       = Zpos (digits2_pos q) + ex.
Proof.
  intros Hmin Hle. unfold shr_fexp. cbn [Zdigits2 shr_record_of_loc].
  set (d := Zpos (digits2_pos q)) in *.
  set (E := fexp prec emax (d + ex)) in *.
  destruct (E - ex) as [|p|p] eqn:Hn.
  - exists q. split; [reflexivity|]. split; [cbn [shr snd]|fold d]; lia.
  - assert (Hp : Zpos p <= Z.log2 (Zpos q)).
    { pose proof (digits2_log2 q). fold d in H. subst E. rewrite fexp_eq in Hn. lia. }
    pose proof (shr_pos_m (Build_shr_record (Zpos q) false false) ex p) as Hm.
    cbn [shr_m] in Hm. specialize (Hm ltac:(lia)).
    assert (Hpos : 0 < Z.shiftr (Zpos q) (Zpos p)).
    { assert (0 <= Z.shiftr (Zpos q) (Zpos p)) by (apply Z.shiftr_nonneg; lia).
      assert (Z.shiftr (Zpos q) (Zpos p) <> 0).
      { rewrite Z.shiftr_eq_0_iff. lia. }
      lia. }
    destruct (Z.shiftr (Zpos q) (Zpos p)) as [|q'|q'] eqn:Hs; try lia.
    exists q'. split; [exact Hm|]. split.
    + cbn [shr snd]. lia.
    + rewrite (digits2_log2 q'), <- Hs, Z.log2_shiftr by lia.
      pose proof (digits2_log2 q). fold d in H. lia.
  - lia.
Qed.

Lemma round_nearest_even_ge (m : Z) (l : location) : m <= round_nearest_even m l <= m + 1.
Proof.
  destruct l as [|[ | | ]]; cbn; try lia. destruct (Z.even m); lia.
Qed.

Lemma digits2_mono (p q : positive) : (p <= q)%positive -> Zpos (digits2_pos p) <= Zpos (digits2_pos q).
Proof.
  intros H. rewrite !digits2_log2. apply Z.add_le_mono_r. apply Z.log2_le_mono. lia.
Qed.

(** Rounding a positive mantissa that is not below the smallest exponent. *)
Lemma binary_round_aux_shape (sx : bool) (q : positive) (ex : Z) :
  -1074 < Zpos (digits2_pos q) + ex ->
  ex <= fexp prec emax (Zpos (digits2_pos q) + ex) ->
  exists m e,
    binary_round_aux prec emax sx (Zpos q) ex loc_Exact
    = (if e <=? emax - prec then S754_finite sx m e else S754_infinity sx)
    /\ canonical_mantissa prec emax m e = true
    /\ fexp prec emax (Zpos (digits2_pos q) + ex) <= e.
Proof.
  intros Hmin Hle. unfold binary_round_aux.
  destruct (shr_fexp_pos q ex Hmin Hle) as (q1 & Hm1 & He1 & Hd1).
  destruct (shr_fexp prec emax (Zpos q) ex loc_Exact) as [mrs1 e1].
  cbn [fst snd] in Hm1, He1. rewrite Hm1.
  pose proof (round_nearest_even_ge (Zpos q1) (loc_of_shr_record mrs1)) as Hr.
  destruct (round_nearest_even (Zpos q1) (loc_of_shr_record mrs1)) as [|q2|q2]; try lia.
  assert (Hmono : Zpos (digits2_pos q1) <= Zpos (digits2_pos q2)) by (apply digits2_mono; lia).
  set (E := fexp prec emax (Zpos (digits2_pos q) + ex)) in *.
  assert (HE : E = fexp prec emax (Zpos (digits2_pos q1) + E)).
  { rewrite Hd1. reflexivity. }
  clearbody E.
  assert (Hmin2 : -1074 < Zpos (digits2_pos q2) + e1) by lia.
  assert (Hle2 : e1 <= fexp prec emax (Zpos (digits2_pos q2) + e1)).
  { rewrite He1. rewrite HE at 1. rewrite !fexp_eq. lia. }
  destruct (shr_fexp_pos q2 e1 Hmin2 Hle2) as (q3 & Hm3 & He3 & Hd3).
  destruct (shr_fexp prec emax (Zpos q2) e1 loc_Exact) as [mrs3 e3].
  cbn [fst snd] in Hm3, He3. rewrite Hm3.
  exists q3, e3. split; [reflexivity|]. split.
  - unfold canonical_mantissa. apply Z.eqb_eq. rewrite He3 at 1. rewrite Hd3. now rewrite He3.
  - rewrite He3, He1. rewrite HE at 1. rewrite !fexp_eq. lia.
Qed.

Lemma iter_xO_value (p d : positive) : Zpos (Pos.iter xO p d) = Zpos p * 2 ^ Zpos d.
Proof.
  induction d as [|d IH] using Pos.peano_ind.
  - cbn. lia.
  - rewrite Pos.iter_succ, Pos2Z.inj_succ, Z.pow_succ_r by lia.
    rewrite Pos2Z.inj_xO, IH. lia.
Qed.

Lemma digits2_shift (p d : positive) :
  Zpos (digits2_pos (Pos.iter xO p d)) = Zpos (digits2_pos p) + Zpos d.
Proof.
  rewrite !digits2_log2, iter_xO_value, Z.log2_mul_pow2 by lia. lia.
Qed.

(** The mantissa of [shl_align], for an exponent that is not above. *)
Lemma shl_align_value (m : positive) (e e' : Z) :
  e' <= e -> Zpos (fst (shl_align m e e')) = Zpos m * 2 ^ (e - e').
Proof.
  intros H. unfold shl_align. destruct (e' - e) as [|d|d] eqn:Hd; cbn [fst]; try lia.
  - replace (e - e') with 0 by lia. lia.
  - rewrite iter_xO_value. f_equal. f_equal. lia.
Qed.

Lemma binary_round_shape (sx : bool) (p : positive) (ex : Z) :
  -1074 < Zpos (digits2_pos p) + ex ->
  exists m e,
    binary_round prec emax sx p ex
    = (if e <=? emax - prec then S754_finite sx m e else S754_infinity sx)
    /\ canonical_mantissa prec emax m e = true
    /\ fexp prec emax (Zpos (digits2_pos p) + ex) <= e.
Proof.
  intros Hmin. unfold binary_round, shl_align.
  set (E := fexp prec emax (Zpos (digits2_pos p) + ex)).
  assert (HE : E = fexp prec emax (Zpos (digits2_pos p) + ex)) by reflexivity.
  clearbody E.
  destruct (E - ex) as [|d|d] eqn:Hd.
  - destruct (binary_round_aux_shape sx p ex Hmin) as (m & e & H1 & H2 & H3); [lia|].
    exists m, e. rewrite <- HE in H3. auto.
  - destruct (binary_round_aux_shape sx p ex Hmin) as (m & e & H1 & H2 & H3); [lia|].
    exists m, e. rewrite <- HE in H3. auto.
  - assert (Hdig : Zpos (digits2_pos (Pos.iter xO p d)) + E = Zpos (digits2_pos p) + ex).
    { rewrite digits2_shift. lia. }
    destruct (binary_round_aux_shape sx (Pos.iter xO p d) E) as (m & e & H1 & H2 & H3).
    + lia.
    + rewrite Hdig, <- HE. lia.
    + exists m, e. rewrite Hdig, <- HE in H3. auto.
Qed.

(** A canonical mantissa within range rounds to itself. *)
Lemma binary_round_aux_canonical (sx : bool) (q : positive) (ex : Z) :
  canonical_mantissa prec emax q ex = true ->
  ex <= 971 ->
  binary_round_aux prec emax sx (Zpos q) ex loc_Exact = S754_finite sx q ex.
Proof.
  intros Hc He. unfold canonical_mantissa in Hc. apply Z.eqb_eq in Hc.
  unfold binary_round_aux, shr_fexp. cbn [Zdigits2 shr_record_of_loc].
  rewrite Hc, Z.sub_diag. cbn [shr shr_m loc_of_shr_record round_nearest_even Zdigits2].
  rewrite Hc, Z.sub_diag. cbn [shr shr_m].
  destruct (Z.leb_spec ex (emax - prec)) as [_|H]; [reflexivity|].
  change (emax - prec) with 971 in H. lia.
Qed.

Lemma binary_normalize_sign (M ez : Z) :
  -1074 <= ez ->
  (SFpositive (binary_normalize prec emax M ez false) = true <-> 0 < M)
  /\ (SFnonneg (binary_normalize prec emax M ez false) = true <-> 0 <= M).
Proof.
  intros Hez. destruct M as [|p|p]; cbn [binary_normalize].
  - cbn. split; split; intros; try lia; try discriminate; reflexivity.
  - destruct (binary_round_shape false p ez) as (m & e & -> & _); [lia|].
    destruct (e <=? emax - prec); cbn; split; split; intros; try lia; reflexivity.
  - destruct (binary_round_shape true p ez) as (m & e & -> & _); [lia|].
    destruct (e <=? emax - prec); cbn; split; split; intros; try lia; discriminate.
Qed.

Lemma canonical_bounds (m : positive) (e : Z) :
  canonical_mantissa prec emax m e = true ->
  -1074 <= e /\ Zpos (digits2_pos m) <= 53
  /\ (-1074 < e -> Zpos (digits2_pos m) = 53).
Proof.
  unfold canonical_mantissa. rewrite Z.eqb_eq, fexp_eq. lia.
Qed.

Lemma mantissa_bounds (m : positive) :
  2 ^ (Zpos (digits2_pos m) - 1) <= Zpos m < 2 ^ Zpos (digits2_pos m).
Proof.
  rewrite digits2_log2. pose proof (Z.log2_spec (Zpos m) ltac:(lia)) as H.
  replace (Z.log2 (Zpos m) + 1 - 1) with (Z.log2 (Zpos m)) by lia.
  unfold Z.succ in H. exact H.
Qed.

(** Canonical mantissas with a smaller exponent are smaller numbers. *)
Lemma canonical_lt (m1 m2 : positive) (e1 e2 : Z) :
  canonical_mantissa prec emax m1 e1 = true ->
  canonical_mantissa prec emax m2 e2 = true ->
  e1 < e2 ->
  Zpos m1 < Zpos m2 * 2 ^ (e2 - e1).
Proof.
  intros H1 H2 Hlt.
  apply canonical_bounds in H1, H2.
  pose proof (mantissa_bounds m1) as B1. pose proof (mantissa_bounds m2) as B2.
  assert (D2 : Zpos (digits2_pos m2) = 53) by lia.
  rewrite D2 in B2.
  assert (Zpos m1 < 2 ^ 53).
  { apply Z.lt_le_trans with (2 ^ Zpos (digits2_pos m1)); [lia|].
    apply Z.pow_le_mono_r; lia. }
  assert (2 ^ 1 <= 2 ^ (e2 - e1)) by (apply Z.pow_le_mono_r; lia).
  change (2 ^ 53) with (2 ^ 52 * 2 ^ 1) in H.
  change (53 - 1) with 52 in B2.
  nia.
Qed.

(** Comparing two canonical numbers: exponents first, then mantissas. *)
Lemma aligned_compare (m1 m2 : positive) (e1 e2 : Z) :
  canonical_mantissa prec emax m1 e1 = true ->
  canonical_mantissa prec emax m2 e2 = true ->
  (Zpos (fst (shl_align m1 e1 (Z.min e1 e2)))
   ?= Zpos (fst (shl_align m2 e2 (Z.min e1 e2))))
  = match e1 ?= e2 with
    | Eq => Pos.compare_cont Eq m1 m2
    | c => c
    end.
Proof.
  intros H1 H2. rewrite !shl_align_value by lia.
  destruct (Z.compare_spec e1 e2) as [Heq|Hlt|Hgt].
  - subst e2. rewrite Z.min_id, Z.sub_diag. cbn [Z.pow]. rewrite !Z.mul_1_r. reflexivity.
  - rewrite Z.min_l, Z.sub_diag by lia. cbn [Z.pow]. rewrite Z.mul_1_r.
    apply Z.compare_lt_iff. now apply canonical_lt.
  - rewrite Z.min_r, Z.sub_diag by lia. cbn [Z.pow]. rewrite Z.mul_1_r.
    apply Z.compare_gt_iff. now apply canonical_lt.
Qed.

(** The sign of a difference tells the order of its operands. *)
Lemma SFsub_sign (x y : spec_float) :
  valid_binary x = true -> valid_binary y = true ->
  (SFpositive (SF64sub x y) = true -> SFltb y x = true)
  /\ (SFnonneg (SF64sub x y) = true -> SFleb y x = true).
Proof.
  intros Hx Hy.
  destruct x as [sx|sx| |sx mx ex], y as [sy|sy| |sy my ey];
    try (destruct sx; try destruct sy; cbn; split; intro; (reflexivity || discriminate));
    try (destruct sy; cbn; split; intro; (reflexivity || discriminate));
    try (cbn; split; intro; discriminate).
  cbn [valid_binary] in Hx, Hy. unfold bounded in Hx, Hy.
  apply andb_prop in Hx, Hy. destruct Hx as [Cx _], Hy as [Cy _].
  unfold SF64sub, SFsub.
  pose proof (aligned_compare my mx ey ex Cy Cx) as Hcmp.
  rewrite (Z.min_comm ey ex) in Hcmp.
  set (ez := Z.min ex ey) in *.
  set (a := Zpos (fst (shl_align mx ex ez))) in *.
  set (b := Zpos (fst (shl_align my ey ez))) in *.
  assert (Ha : 0 < a) by (unfold a; lia).
  assert (Hb : 0 < b) by (unfold b; lia).
  assert (Hez : -1074 <= ez).
  { apply canonical_bounds in Cx, Cy. unfold ez. lia. }
  destruct (binary_normalize_sign (cond_Zopp sx a - cond_Zopp sy b) ez Hez)
    as [[P _] [N _]].
  clearbody a b.
  unfold SFltb, SFleb, SFcompare.
  destruct (Z.compare_spec b a) as [Hab|Hab|Hab];
    destruct sx, sy; cbn [cond_Zopp] in P, N;
    destruct (ey ?= ex); try discriminate Hcmp; try rewrite <- Hcmp;
    split; intro H; try reflexivity;
    try (apply P in H; lia); try (apply N in H; lia).
Qed.

Lemma SFleb_positive (t r : spec_float) :
  SFpositive t = true -> SFleb t r = true -> SFpositive r = true.
Proof.
  destruct t as [st|st| |st mt et], r as [sr|sr| |sr mr er]; cbn;
    try discriminate; try reflexivity;
    try destruct st; try destruct sr; cbn; try discriminate; reflexivity.
Qed.

Lemma SFleb_nonneg (t r : spec_float) :
  SFnonneg t = true -> SFleb t r = true -> SFnonneg r = true.
Proof.
  destruct t as [st|st| |st mt et], r as [sr|sr| |sr mr er]; cbn;
    try discriminate; try reflexivity;
    try destruct st; try destruct sr; cbn; try discriminate; reflexivity.
Qed.

Lemma point_eight_spec : Prim2SF point_eight = S754_finite false 7205759403792794 (-53).
Proof. reflexivity. Qed.

(** A positive integer converts to a finite float that is at least 1. *)
Lemma float_of_int_positive (L : Z) (l : float) :
  0 < L -> float_of_int L = Ok l ->
  exists m e, Prim2SF l = S754_finite false m e /\ -52 <= e.
Proof.
  intros HL. destruct L as [|p|p]; try lia. unfold float_of_int.
  cbn [binary_normalize].
  destruct (binary_round_shape false p 0) as (m & e & -> & Hc & He).
  { pose proof (Pos2Z.is_pos (digits2_pos p)). lia. }
  destruct (e <=? emax - prec) eqn:Hb; [|discriminate].
  intros H. change (Ok (SF2Prim (S754_finite false m e)) = Ok l) in H.
  assert (El : l = SF2Prim (S754_finite false m e)) by congruence.
  exists m, e. split.
  - rewrite El. apply Prim2SF_SF2Prim. cbn [SpecFloat.valid_binary]. unfold bounded.
    now rewrite Hc, Hb.
  - rewrite fexp_eq in He. pose proof (Pos2Z.is_pos (digits2_pos p)). lia.
Qed.

Lemma float_of_int_zero : float_of_int 0 = Ok 0%float.
Proof. reflexivity. Qed.

(** Integers below [2^53] in magnitude convert to floats. *)
Lemma float_of_int_total (L : Z) :
  Z.abs L < 2 ^ 53 -> exists l, float_of_int L = Ok l.
Proof.
  intros HL. unfold float_of_int.
  destruct L as [|p|p]; cbn [binary_normalize]; [eexists; reflexivity| |].
  all: assert (Hd : Zpos (digits2_pos p) <= 53)
         by (rewrite digits2_log2;
             assert (Z.log2 (Zpos p) < 53) by (apply Z.log2_lt_pow2; lia); lia).
  all: unfold binary_round, shl_align; rewrite fexp_eq.
  all: destruct (Z.max (Zpos (digits2_pos p) + 0 - 53) (-1074) - 0) as [|d|d] eqn:Hn;
         try lia.
  all: try (rewrite binary_round_aux_canonical;
            [eexists; reflexivity
            | unfold canonical_mantissa; apply Z.eqb_eq; rewrite fexp_eq; lia
            | lia]).
  all: rewrite binary_round_aux_canonical;
         [eexists; reflexivity
         | unfold canonical_mantissa; apply Z.eqb_eq;
           rewrite fexp_eq, digits2_shift; lia
         | lia].
Qed.

(** The threshold of a positive target length is a positive float. *)
Lemma threshold_positive (L : Z) (l : float) :
  0 < L -> float_of_int L = Ok l ->
  SFpositive (Prim2SF (l * point_eight)%float) = true.
Proof.
  intros HL Hl. destruct (float_of_int_positive L l HL Hl) as (m & e & Hm & He).
  rewrite mul_spec, Hm, point_eight_spec. unfold SF64mul, SFmul. cbn [xorb].
  set (p8 := 7205759403792794%positive).
  assert (Hdig : 53 <= Zpos (digits2_pos (m * p8))).
  { change 53 with (Zpos (digits2_pos p8)). apply digits2_mono. nia. }
  destruct (binary_round_aux_shape false (m * p8) (e + -53)) as (m' & e' & -> & _).
  - lia.
  - rewrite fexp_eq. lia.
  - now destruct (e' <=? emax - prec).
Qed.

Lemma threshold_nonneg (L : Z) (l : float) :
  0 <= L -> float_of_int L = Ok l ->
  SFnonneg (Prim2SF (l * point_eight)%float) = true.
Proof.
  intros HL Hl. destruct (Z.eq_dec L 0) as [->|Hne].
  - rewrite float_of_int_zero in Hl. injection Hl as <-. reflexivity.
  - pose proof (threshold_positive L l ltac:(lia) Hl) as H.
    destruct (Prim2SF (l * point_eight)%float) as [s|s| |s m e]; cbn in *;
      try discriminate; try reflexivity; destruct s; congruence.
Qed.

(** A cut the planner accepts for a positive target length has its end
    after its start. *)
Lemma cut_positive (L : Z) (l c e : float) :
  0 < L -> float_of_int L = Ok l ->
  (l * point_eight <=? e - c)%float = true -> (c <? e)%float = true.
Proof.
  intros HL Hl H. rewrite leb_spec, sub_spec in H.
  apply (SFleb_positive _ _ (threshold_positive L l HL Hl)) in H.
  rewrite ltb_spec.
  now apply (SFsub_sign (Prim2SF e) (Prim2SF c) (Prim2SF_valid e) (Prim2SF_valid c)).
Qed.

Lemma cut_nonneg (L : Z) (l c e : float) :
  0 <= L -> float_of_int L = Ok l ->
  (l * point_eight <=? e - c)%float = true -> (c <=? e)%float = true.
Proof.
  intros HL Hl H. rewrite leb_spec, sub_spec in H.
  apply (SFleb_nonneg _ _ (threshold_nonneg L l HL Hl)) in H.
  rewrite leb_spec.
  now apply (SFsub_sign (Prim2SF e) (Prim2SF c) (Prim2SF_valid e) (Prim2SF_valid c)).
Qed.

End Rounding.

Section Floats.

Open Scope float_scope.

Lemma SFmul_comm (x y : spec_float) : SF64mul x y = SF64mul y x.
Proof.
  destruct x as [sx|sx| |sx mx ex], y as [sy|sy| |sy my ey]; cbn;
    try reflexivity; try (now rewrite xorb_comm).
  now rewrite xorb_comm, Pos.mul_comm, Z.add_comm.
Qed.

Lemma float_mul_comm (x y : float) : x * y = y * x.
Proof.
  apply Prim2SF_inj. rewrite !mul_spec. apply SFmul_comm.
Qed.

(** [x <= y] and not [x < y] leave [x == y]. *)
Lemma float_le_not_lt (x y : float) :
  (x <=? y) = true -> (x <? y) = false -> (x =? y) = true.
Proof.
  rewrite leb_spec, ltb_spec, eqb_spec.
  unfold SFleb, SFltb, SFeqb.
  destruct (SFcompare (Prim2SF x) (Prim2SF y)) as [[ | | ]|]; congruence.
Qed.


(** A float that compares with another is equal to itself: it is no NaN. *)
Lemma float_eq_refl (x y : float) : (x <=? y) = true -> (y =? y) = true.
Proof.
  rewrite leb_spec, eqb_spec. unfold SFleb, SFeqb.
  destruct (Prim2SF y) as [s|s| |s m e].
  - reflexivity.
  - now destruct s.
  - now destruct (Prim2SF x).
  - intros _. cbn. destruct s; now rewrite Z.compare_refl, Pos.compare_cont_refl.
Qed.

Lemma float_lt_le (x y : float) : (x <? y) = true -> (x <=? y) = true.
Proof.
  rewrite leb_spec, ltb_spec. unfold SFleb, SFltb.
  destruct (SFcompare (Prim2SF x) (Prim2SF y)) as [[ | | ]|]; congruence.
Qed.

End Floats.

(** * The planner *)

Section Planner.

Open Scope float_scope.

Lemma cut_loop_fold (L : Z) (l : float) (silences : list silence) :
  float_of_int L = Ok l ->
  forall cursor segments,
    cut_loop L silences cursor segments
    = Ok (fold_left (cut_step (l * point_eight)) silences (cursor, segments)).
Proof.
  intros HL. induction silences as [|s rest IH]; intros cursor segments.
  - reflexivity.
  - cbn [cut_loop fold_left]. unfold int_mul_float. rewrite HL. cbn [rbind].
    unfold cut_step at 2. cbn [fst snd].
    destruct (l * point_eight <=? end_ s - cursor); apply IH.
Qed.

Lemma greedy_step_cut_step (l : float) st s :
  Spec.greedy_step l st s = cut_step (l * point_eight) st s.
Proof.
  destruct st as [cursor plan]. unfold Spec.greedy_step, cut_step. cbn [fst snd].
  now rewrite (float_mul_comm point_eight l).
Qed.

Lemma fold_greedy_cut (l : float) (silences : list silence) st :
  fold_left (Spec.greedy_step l) silences st
  = fold_left (cut_step (l * point_eight)) silences st.
Proof.
  revert st. induction silences as [|s rest IH]; intros st; cbn [fold_left].
  - reflexivity.
  - rewrite greedy_step_cut_step. apply IH.
Qed.

(** The planner returns whenever the target length converts to a float. *)
Lemma plan_segments_fold (silences : list silence) (D : float) (L : Z) (l : float) :
  float_of_int L = Ok l ->
  plan_segments silences D L
  = Ok (add_remainder D (fold_left (cut_step (l * point_eight)) silences (0, []))).
Proof.
  intros HL. unfold plan_segments. now rewrite (cut_loop_fold L l silences HL).
Qed.

(** X20: the planner returns a plan, without an exception, for every
    target length below [2^53] in magnitude. *)
Lemma plan_segments_total (silences : list silence) (D : float) (L : Z) :
  (Z.abs L < 2 ^ 53)%Z -> exists plan, plan_segments silences D L = Ok plan.
Proof.
  intros HL. destruct (float_of_int_total L HL) as [l Hl].
  rewrite (plan_segments_fold silences D L l Hl). eauto.
Qed.

(** C1: the planner is the greedy threshold cut of the specification: from
    cursor 0, each silence in order is a cut, [(cursor, silence.end)],
    exactly when [silence.end - cursor >= 0.8 * L], and the remainder
    [(cursor, D)] is appended if and only if [cursor < D]. *)
Theorem plan_segments_greedy (silences : list silence) (D : float) (L : Z) (l : float) :
  float_of_int L = Ok l ->
  plan_segments silences D L = Ok (Spec.greedy_plan silences D l).
Proof.
  intros HL. rewrite (plan_segments_fold silences D L l HL).
  unfold Spec.greedy_plan. rewrite fold_greedy_cut.
  destruct (fold_left _ silences (0, [])) as [cursor plan]. reflexivity.
Qed.

(** *** The plan as a chain *)

Lemma tiles_app (a b c : float) (p q : list segment) :
  tiles a p b -> tiles b q c -> tiles a (p ++ q) c.
Proof.
  revert a. induction p as [|[s e] p IH]; intros a Hp Hq; cbn in *.
  - now subst.
  - destruct Hp as [-> Hp]. split; [reflexivity|]. now apply IH.
Qed.

Lemma tiles_snoc (a b c : float) (p : list segment) :
  tiles a p b -> tiles a (p ++ [(b, c)]) c.
Proof. intros Hp. apply (tiles_app a b c p [(b, c)] Hp). cbn. auto. Qed.

Lemma tiles_head (a b : float) (p : list segment) (x : segment) :
  tiles a p b -> hd_error p = Some x -> fst x = a.
Proof.
  destruct p as [|[s e] p]; cbn; [discriminate|].
  intros [-> _] [= <-]. reflexivity.
Qed.

Lemma tiles_last (a b : float) (p : list segment) (x : segment) :
  tiles a p b -> last_error p = Some x -> snd x = b.
Proof.
  revert a. induction p as [|[s e] p IH]; intros a; [discriminate|].
  destruct p as [|y p].
  - cbn. intros [_ ->] [= <-]. reflexivity.
  - intros [_ Hp] Hl. exact (IH e Hp Hl).
Qed.

Lemma tiles_adjacent (a b : float) (p : list segment) (i : nat) (x y : segment) :
  tiles a p b -> nth_error p i = Some x -> nth_error p (S i) = Some y ->
  snd x = fst y.
Proof.
  revert a i. induction p as [|[s e] p IH]; intros a i Hp Hx Hy.
  - destruct i; discriminate.
  - destruct Hp as [_ Hp]. destruct i as [|i].
    + injection Hx as <-. destruct p as [|[s' e'] p]; [discriminate|].
      injection Hy as <-. destruct Hp as [-> _]. reflexivity.
    + exact (IH e i Hp Hx Hy).
Qed.

Lemma cut_step_eq (t cursor : float) (segments : list segment) (s : silence) :
  cut_step t (cursor, segments) s
  = if t <=? end_ s - cursor
    then (end_ s, segments ++ [(cursor, end_ s)])
    else (cursor, segments).
Proof. reflexivity. Qed.

(** The cuts chain from 0 to the cursor. *)
Lemma cut_fold_tiles (t : float) (silences : list silence) :
  forall a cursor segments,
    tiles a segments cursor ->
    tiles a (snd (fold_left (cut_step t) silences (cursor, segments)))
          (fst (fold_left (cut_step t) silences (cursor, segments))).
Proof.
  induction silences as [|s rest IH]; intros a cursor segments H; cbn [fold_left].
  - exact H.
  - rewrite cut_step_eq. destruct (t <=? end_ s - cursor).
    + apply IH. now apply tiles_snoc.
    + now apply IH.
Qed.

(** The cursor is where it started or the end of a silence. *)
Lemma cut_fold_cursor (t : float) (silences : list silence) :
  forall cursor segments,
    fst (fold_left (cut_step t) silences (cursor, segments)) = cursor
    \/ exists s, In s silences
                 /\ fst (fold_left (cut_step t) silences (cursor, segments)) = end_ s.
Proof.
  induction silences as [|s rest IH]; intros cursor segments; cbn [fold_left].
  - now left.
  - rewrite cut_step_eq. destruct (t <=? end_ s - cursor).
    + destruct (IH (end_ s) (segments ++ [(cursor, end_ s)])) as [H|[s' [Hin H]]].
      * right. exists s. split; [now left | exact H].
      * right. exists s'. split; [now right | exact H].
    + destruct (IH cursor segments) as [H|[s' [Hin H]]].
      * now left.
      * right. exists s'. split; [now right | exact H].
Qed.


Lemma last_error_snoc {A : Type} (l : list A) (x : A) :
  last_error (l ++ [x]) = Some x.
Proof.
  induction l as [|a l IH]; [reflexivity|].
  cbn [app last_error]. destruct (l ++ [x]) eqn:E; [|exact IH].
  destruct l; discriminate.
Qed.



(** With every silence ending by [D], the cursor stays at or before [D]. *)
Lemma cut_fold_cursor_le (t D : float) (silences : list silence)
    (cursor : float) (segments : list segment) :
  (cursor <=? D) = true ->
  Forall (fun s => (end_ s <=? D) = true) silences ->
  (fst (fold_left (cut_step t) silences (cursor, segments)) <=? D) = true.
Proof.
  intros Hc Hs.
  destruct (cut_fold_cursor t silences cursor segments) as [->|[s [Hin ->]]].
  - exact Hc.
  - rewrite Forall_forall in Hs. exact (Hs s Hin).
Qed.

(** The segments of a positive target length end after they start. *)
Lemma cut_fold_positive (L : Z) (l : float) (silences : list silence) :
  (0 < L)%Z -> float_of_int L = Ok l ->
  forall cursor segments,
    Forall positive_length segments ->
    Forall positive_length
      (snd (fold_left (cut_step (l * point_eight)) silences (cursor, segments))).
Proof.
  intros HL Hl.
  induction silences as [|s rest IH]; intros cursor segments H; cbn [fold_left].
  - exact H.
  - rewrite cut_step_eq. destruct (l * point_eight <=? end_ s - cursor) eqn:E.
    + apply IH. apply Forall_app. split; [exact H|].
      constructor; [|constructor].
      exact (cut_positive L l cursor (end_ s) HL Hl E).
    + now apply IH.
Qed.

(** The segments of a target length that is not negative do not run
    backwards. *)
Lemma cut_fold_forward (L : Z) (l : float) (silences : list silence) :
  (0 <= L)%Z -> float_of_int L = Ok l ->
  forall cursor segments,
    Forall forward segments ->
    Forall forward
      (snd (fold_left (cut_step (l * point_eight)) silences (cursor, segments))).
Proof.
  intros HL Hl.
  induction silences as [|s rest IH]; intros cursor segments H; cbn [fold_left].
  - exact H.
  - rewrite cut_step_eq. destruct (l * point_eight <=? end_ s - cursor) eqn:E.
    + apply IH. apply Forall_app. split; [exact H|].
      constructor; [|constructor].
      exact (cut_nonneg L l cursor (end_ s) HL Hl E).
    + now apply IH.
Qed.

Lemma app_not_nil {A : Type} (l : list A) (x : A) : l ++ [x] <> [].
Proof. destruct l; discriminate. Qed.

(** C2, as amended: when no silence ends after [D] and [D >= 0], the plan
    tiles [0, D]: consecutive segments share their boundary, the first
    starts at 0, the last ends at [D]; the plan is not empty when [D > 0],
    and for a target length that is not negative no segment runs
    backwards. *)
Theorem plan_segments_tiles (silences : list silence) (D : float) (L : Z) (l : float) :
  float_of_int L = Ok l ->
  (0 <=? D) = true ->
  Forall (fun s => (end_ s <=? D) = true) silences ->
  exists plan,
    plan_segments silences D L = Ok plan
    /\ (forall i x y, nth_error plan i = Some x -> nth_error plan (S i) = Some y ->
                      snd x = fst y)
    /\ (forall x, hd_error plan = Some x -> fst x = 0)
    /\ (forall x, last_error plan = Some x -> (snd x =? D) = true)
    /\ ((0 <? D) = true -> plan <> [])
    /\ ((0 <= L)%Z -> Forall forward plan).
Proof.
  intros Hl HD Hs. rewrite (plan_segments_fold silences D L l Hl).
  pose proof (cut_fold_tiles (l * point_eight) silences 0 0 [] eq_refl) as Ht.
  pose proof (cut_fold_cursor_le (l * point_eight) D silences 0 [] HD Hs) as Hc.
  pose proof (fun H => cut_fold_forward L l silences H Hl 0 [] (Forall_nil _)) as Hf.
  destruct (fold_left (cut_step (l * point_eight)) silences (0, [])) as [c cuts].
  cbn [fst snd] in *. unfold add_remainder.
  destruct (c <? D) eqn:Hlt.
  - pose proof (tiles_snoc 0 c D cuts Ht) as Ht'.
    exists (cuts ++ [(c, D)]). split; [reflexivity|]. repeat split.
    + intros i x y. apply (tiles_adjacent 0 D).  exact Ht'.
    + intros x. apply (tiles_head 0 D). exact Ht'.
    + intros x Hx. rewrite last_error_snoc in Hx. injection Hx as <-. cbn [snd].
      exact (float_eq_refl 0 D HD).
    + intros _. apply app_not_nil.
    + intros HL. apply Forall_app. split; [exact (Hf HL)|].
      constructor; [|constructor]. unfold forward. cbn [fst snd].
      now apply float_lt_le.
  - exists cuts. split; [reflexivity|]. repeat split.
    + intros i x y. apply (tiles_adjacent 0 c). exact Ht.
    + intros x. apply (tiles_head 0 c). exact Ht.
    + intros x Hx. rewrite (tiles_last 0 c cuts x Ht Hx).
      now apply float_le_not_lt.
    + intros H0 ->. cbn in Ht. subst c. congruence.
    + exact Hf.
Qed.


(** C9: for a target length above zero, every segment of the plan ends
    after it starts: the plan holds no segment of length zero or less. *)
Theorem plan_segments_positive (silences : list silence) (D : float) (L : Z) (l : float) :
  (0 < L)%Z ->
  float_of_int L = Ok l ->
  exists plan,
    plan_segments silences D L = Ok plan /\ Forall positive_length plan.
Proof.
  intros HL Hl. rewrite (plan_segments_fold silences D L l Hl).
  pose proof (cut_fold_positive L l silences HL Hl 0 [] (Forall_nil _)) as Hpos.
  destruct (fold_left (cut_step (l * point_eight)) silences (0, [])) as [c cuts].
  cbn [fst snd] in Hpos. unfold add_remainder.
  destruct (c <? D) eqn:Hlt.
  - exists (cuts ++ [(c, D)]). split; [reflexivity|].
    apply Forall_app. split; [exact Hpos|].
    constructor; [exact Hlt | constructor].
  - exists cuts. split; [reflexivity | exact Hpos].
Qed.

End Planner.

(** * The silence detector *)

Section Detector.

Context {builtins : Builtins}.

(** A start marker records the pending start, over any earlier one. *)
Lemma scan_line_start (st : scan_state) (line : string) (t : float) :
  Text.py_in "silencedetect" line = true ->
  Text.py_in "silence_start:" line = true ->
  marker_value "silence_start:" line = Ok t ->
  scan_line st line = Ok (Some t, snd st).
Proof.
  intros H1 H2 H3. destruct st as [start_time silence_periods].
  unfold scan_line. now rewrite H1, H2, H3.
Qed.

(** An end marker with a pending start gives the interval and clears the
    pending start. *)
Lemma scan_line_end_pending (s : float) (silence_periods : list silence)
    (line : string) (t : float) :
  Text.py_in "silencedetect" line = true ->
  Text.py_in "silence_start:" line = false ->
  Text.py_in "silence_end:" line = true ->
  marker_value "silence_end:" line = Ok t ->
  scan_line (Some s, silence_periods) line
  = Ok (None, silence_periods ++ [{| start := s; end_ := t |}]).
Proof.
  intros H1 H2 H3 H4. unfold scan_line. now rewrite H1, H2, H3, H4.
Qed.

(** An end marker without a pending start is ignored; the line is not even
    split. *)
Lemma scan_line_end_idle (silence_periods : list silence) (line : string) :
  Text.py_in "silence_start:" line = false ->
  scan_line (None, silence_periods) line = Ok (None, silence_periods).
Proof.
  intros H2. unfold scan_line. rewrite H2.
  destruct (Text.py_in "silencedetect" line); [|reflexivity].
  now destruct (Text.py_in "silence_end:" line).
Qed.

Lemma scan_lines_app (lines lines' : list string) :
  forall st,
    scan_lines st (lines ++ lines')
    = rbind (scan_lines st lines) (fun st' => scan_lines st' lines').
Proof.
  induction lines as [|line rest IH]; intros st; [reflexivity|].
  cbn [app scan_lines]. destruct (scan_line st line) as [st'|e]; [|reflexivity].
  cbn [rbind]. apply IH.
Qed.

(** A start marker at the end of the stream changes no silent period: the
    silence it opens is dropped. *)
Lemma parse_trailing_start (lines : list string) (line : string) (t : float)
    (silence_periods : list silence) :
  parse_silence_periods lines = Ok silence_periods ->
  Text.py_in "silencedetect" line = true ->
  Text.py_in "silence_start:" line = true ->
  marker_value "silence_start:" line = Ok t ->
  parse_silence_periods (lines ++ [line]) = Ok silence_periods.
Proof.
  unfold parse_silence_periods. intros H H1 H2 H3. rewrite scan_lines_app.
  destruct (scan_lines (None, []) lines) as [st|e]; [|discriminate].
  cbn [rbind] in *. injection H as <-. cbn [scan_lines].
  now rewrite (scan_line_start st line t H1 H2 H3).
Qed.

(** The scan follows the pairing of the specification: from a state with
    pending start [pending], it adds the intervals [pair_markers] gives. *)
Lemma scan_lines_pair (lines : list string) :
  forall (ms : list Spec.marker) (pending : option float) (acc : list silence),
    read_markers lines = Ok ms ->
    exists pending',
      scan_lines (pending, acc) lines
      = Ok (pending', acc ++ Spec.pair_markers pending ms).
Proof.
  induction lines as [|line rest IH]; intros ms pending acc Hms.
  - injection Hms as <-. exists pending. cbn. now rewrite app_nil_r.
  - cbn [read_markers] in Hms.
    destruct (read_marker line) as [m|e] eqn:Hm; [|discriminate].
    cbn [rbind] in Hms.
    destruct (read_markers rest) as [ms'|e] eqn:Hrest; [|discriminate].
    injection Hms as <-. cbn [scan_lines].
    unfold read_marker in Hm. unfold scan_line.
    destruct (Text.py_in "silencedetect" line).
    + destruct (Text.py_in "silence_start:" line).
      * destruct (marker_value "silence_start:" line) as [t|e]; [|discriminate].
        injection Hm as <-. cbn [rbind Spec.pair_markers].
        exact (IH ms' (Some t) acc eq_refl).
      * destruct (Text.py_in "silence_end:" line).
        -- destruct (marker_value "silence_end:" line) as [t|e]; [|discriminate].
           injection Hm as <-. cbn [Spec.pair_markers].
           destruct pending as [s|]; cbn [rbind].
           ++ destruct (IH ms' None (acc ++ [{| start := s; end_ := t |}]) eq_refl)
                as [p' Hp'].
              exists p'. rewrite Hp'. now rewrite <- app_assoc.
           ++ exact (IH ms' None acc eq_refl).
        -- injection Hm as <-. cbn [rbind Spec.pair_markers].
           exact (IH ms' pending acc eq_refl).
    + injection Hm as <-. cbn [rbind Spec.pair_markers].
      exact (IH ms' pending acc eq_refl).
Qed.

(** C3: the detector pairs the markers by one pending start, as the
    specification says: a start marker records the pending start over any
    unmatched one, an end marker gives [(pending start, end)] and clears it
    exactly when there is one, and a pending start left at the end of the
    stream gives no interval. *)
Theorem parse_silence_periods_pairs (lines : list string) (ms : list Spec.marker) :
  read_markers lines = Ok ms ->
  parse_silence_periods lines = Ok (Spec.pair_markers None ms).
Proof.
  intros Hms. unfold parse_silence_periods.
  destruct (scan_lines_pair lines ms None [] Hms) as [p' ->]. reflexivity.
Qed.

(** A start marker at the end of the stream adds nothing. *)
Lemma pair_markers_trailing_start (ms : list Spec.marker) (t : float) :
  forall pending,
    Spec.pair_markers pending (ms ++ [Spec.Silence_start t])
    = Spec.pair_markers pending ms.
Proof.
  induction ms as [|m ms IH]; intros pending; [reflexivity|].
  destruct m as [t'|t'|]; cbn [app Spec.pair_markers].
  - apply IH.
  - destruct pending; now rewrite IH.
  - apply IH.
Qed.

(** An end marker that follows no start adds nothing. *)
Lemma pair_markers_unmatched_end (ms : list Spec.marker) (t : float) :
  Spec.pair_markers None (Spec.Silence_end t :: ms) = Spec.pair_markers None ms.
Proof. reflexivity. Qed.

(** C10: a line without the substring [silencedetect], whatever else it
    holds, leaves the pending start and the list of silent periods as they
    are. *)
Theorem scan_line_without_silencedetect (start_time : option float)
    (silence_periods : list silence) (line : string) :
  Text.py_in "silencedetect" line = false ->
  scan_line (start_time, silence_periods) line = Ok (start_time, silence_periods).
Proof.
  intros H. unfold scan_line. rewrite H. reflexivity.
Qed.

(** Lines without [silencedetect] leave the scan where it is, however many
    they are. *)
Lemma scan_lines_without_silencedetect (st : scan_state) (lines : list string) :
  Forall (fun line => Text.py_in "silencedetect" line = false) lines ->
  scan_lines st lines = Ok st.
Proof.
  induction 1 as [|line rest H _ IH]; [reflexivity|].
  cbn [scan_lines]. destruct st as [start_time silence_periods].
  unfold scan_line. rewrite H. exact IH.
Qed.

End Detector.

(** * Decimal numbers *)

Section Decimal.

Open Scope nat_scope.

Lemma string_length_app (s t : string) :
  String.length (s ++ t) = String.length s + String.length t.
Proof. induction s as [|c s IH]; cbn; [reflexivity | now rewrite IH]. Qed.

Lemma zeros_length (k : nat) : String.length (Text.zeros k) = k.
Proof. induction k as [|k IH]; cbn; [reflexivity | now rewrite IH]. Qed.

Lemma digits_length_pos (fuel n : nat) :
  n < fuel -> 1 <= String.length (Text.digits fuel n).
Proof.
  destruct fuel as [|fuel]; [lia|]. intros _. cbn [Text.digits].
  destruct (n <? 10); [cbn; lia|].
  rewrite string_length_app. cbn. lia.
Qed.

(** A larger number has at least as many digits. *)
Lemma digits_length_mono (fuel : nat) :
  forall fuel' n m,
    n <= m -> n < fuel -> m < fuel' ->
    String.length (Text.digits fuel n) <= String.length (Text.digits fuel' m).
Proof.
  induction fuel as [|fuel IH]; intros fuel' n m Hnm Hn Hm; [lia|].
  cbn [Text.digits]. destruct (Nat.ltb_spec n 10) as [Hlt|Hge].
  - cbn [String.length]. now apply digits_length_pos.
  - destruct fuel' as [|fuel']; [lia|]. cbn [Text.digits].
    destruct (Nat.ltb_spec m 10) as [Hlt'|Hge']; [lia|].
    rewrite !string_length_app. apply Nat.add_le_mono_r.
    assert (n / 10 <= m / 10) by (apply Nat.Div0.div_le_mono; lia).
    assert (n / 10 < n) by (apply Nat.div_lt; lia).
    assert (m / 10 < m) by (apply Nat.div_lt; lia).
    apply IH; lia.
Qed.

Lemma str_nat_length_mono (n m : nat) :
  n <= m -> String.length (Text.str_nat n) <= String.length (Text.str_nat m).
Proof. intros H. unfold Text.str_nat. apply digits_length_mono; lia. Qed.

(** A number with at most [width] digits is formatted on [width]
    characters. *)
Lemma format_0d_length (width n : nat) :
  String.length (Text.str_nat n) <= width ->
  String.length (Text.format_0d width n) = width.
Proof.
  intros H. unfold Text.format_0d. rewrite string_length_app, zeros_length. lia.
Qed.

(** The length of [str(n)] is the number of decimal digits of [n]. *)
Lemma digits_bounds (fuel : nat) :
  forall n,
    n < fuel -> 0 < n ->
    10 ^ (String.length (Text.digits fuel n) - 1) <= n
    < 10 ^ String.length (Text.digits fuel n).
Proof.
  induction fuel as [|fuel IH]; intros n Hn Hpos; [lia|].
  cbn [Text.digits]. destruct (Nat.ltb_spec n 10) as [Hlt|Hge].
  - cbn. lia.
  - rewrite string_length_app. cbn [String.length].
    assert (Hq : 0 < n / 10) by (apply Nat.div_str_pos; lia).
    assert (Hlt : n / 10 < fuel).
    { assert (n / 10 < n) by (apply Nat.div_lt; lia). lia. }
    specialize (IH (n / 10) Hlt Hq).
    pose proof (digits_length_pos fuel (n / 10) Hlt) as Hlen.
    set (k := String.length (Text.digits fuel (n / 10))) in *.
    replace (k + 1 - 1) with (S (k - 1)) by lia.
    replace (k + 1) with (S k) by lia.
    rewrite !Nat.pow_succ_r'.
    pose proof (Nat.div_mod_eq n 10) as Hdm.
    pose proof (Nat.mod_upper_bound n 10 ltac:(lia)) as Hm.
    lia.
Qed.

Lemma str_nat_bounds (n : nat) :
  0 < n ->
  10 ^ (String.length (Text.str_nat n) - 1) <= n
  < 10 ^ String.length (Text.str_nat n).
Proof. intros H. unfold Text.str_nat. apply digits_bounds; lia. Qed.

End Decimal.

(** * The segment writer and the whole run *)

Section Writer.

Context {builtins : Builtins}.
Variable engine : Engine.

Lemma commands_app (a b : list event) :
  commands (a ++ b) = commands a ++ commands b.
Proof.
  induction a as [|[path|command|m] a IH]; cbn; try reflexivity; now rewrite IH.
Qed.

Lemma bind_ok {A B : Type} (m : Py A) (k : A -> Py B) (log : list event) (a : A) :
  m = (log, Ok a) -> bind m k = (log ++ fst (k a), snd (k a)).
Proof. intros ->. unfold bind. now destruct (k a). Qed.

(** The probe runs one command. *)
Lemma get_audio_duration_commands (input_file : string) :
  commands (fst (get_audio_duration engine input_file))
  = [get_audio_duration_command input_file].
Proof.
  unfold get_audio_duration, subprocess_run, bind, emit, ret, lift.
  destruct (returncode _ =? 0)%Z; [|reflexivity].
  now destruct (py_float _).
Qed.

(** Writing a segment with an end time runs one command and returns. *)
Lemma create_segment_some (input_file output_file : string) (s e : float) :
  exists ok log,
    create_segment engine input_file output_file s (Some e)
    = (Run (create_segment_command input_file output_file s (Some e)) :: log, Ok ok)
    /\ commands log = []
    /\ ok = (returncode
               (engine (create_segment_command input_file output_file s (Some e)))
             =? 0)%Z.
Proof.
  unfold create_segment, subprocess_run, bind, emit, ret.
  destruct (returncode _ =? 0)%Z; cbn; eauto.
Qed.

(** The writer is run once for each segment, in order, whatever it
    returned for the segments before. *)
Lemma write_segments_commands (input_file output_subdir : string) (num_digits : nat)
    (segments : list segment) :
  forall segment_num,
    commands (fst (write_segments engine input_file output_subdir num_digits
                                  segment_num segments))
    = map (segment_command input_file output_subdir num_digits)
          (combine (seq segment_num (List.length segments)) segments)
    /\ snd (write_segments engine input_file output_subdir num_digits
                           segment_num segments) = Ok tt.
Proof.
  induction segments as [|[s e] rest IH]; intros n; [now split|].
  cbn [write_segments List.length seq combine map].
  destruct (create_segment_some input_file
              (path_join output_subdir [segment_name num_digits n]) s e)
    as (ok & log & Hc & Hlog & _).
  rewrite (bind_ok _ _ _ _ Hc).
  destruct (IH (S n)) as [IH1 IH2]. split; [|exact IH2].
  cbn [fst app commands]. rewrite commands_app, Hlog, IH1. reflexivity.
Qed.

(** C4: with no end time, the command the writer builds still asks for an
    end, [-to None]: it does not ask for the rest of the file. *)
Theorem create_segment_without_end (input_file output_file : string) (start_time : float) :
  exists log outcome,
    create_segment engine input_file output_file start_time None
    = (Run ["ffmpeg"; "-ss"; str_float start_time; "-to"; "None";
            "-i"; input_file; "-c:a"; "libmp3lame"; "-y"; output_file]%string :: log,
       outcome).
Proof.
  unfold create_segment, subprocess_run, bind, emit, ret.
  cbn [create_segment_command str_optional].
  destruct (returncode _ =? 0)%Z.
  - destruct (get_audio_duration engine input_file) as [logd [d|e]]; cbn; eauto.
  - cbn. eauto.
Qed.



(** A failed write: the error is printed and [False] returned. *)
Lemma create_segment_failure (input_file output_file : string)
    (start_time : float) (end_time : option float) :
  let command := create_segment_command input_file output_file start_time end_time in
  returncode (engine command) <> 0%Z ->
  create_segment engine input_file output_file start_time end_time
  = ([Run command; Print (Error_creating_segment command);
      Print (Captured_stderr command)], Ok false).
Proof.
  intros command H. apply Z.eqb_neq in H.
  unfold create_segment, subprocess_run, bind, emit, ret.
  fold command. now rewrite H.
Qed.

(** C7: when the engine fails at writing a segment, the writer prints the
    error and returns [False], and the loop still runs the writer for every
    segment of the plan, in order: those after the failed one too. *)
Theorem write_continues_after_failure (input_file output_subdir : string)
    (num_digits segment_num : nat) (before : list segment) (seg : segment)
    (after : list segment) :
  let failing :=
    segment_command input_file output_subdir num_digits
                    (segment_num + List.length before, seg)%nat in
  let segments := before ++ seg :: after in
  returncode (engine failing) <> 0%Z ->
  create_segment engine input_file
    (path_join output_subdir
               [segment_name num_digits (segment_num + List.length before)])
    (fst seg) (Some (snd seg))
  = ([Run failing; Print (Error_creating_segment failing);
      Print (Captured_stderr failing)], Ok false)
  /\ commands (fst (write_segments engine input_file output_subdir num_digits
                                   segment_num segments))
     = map (segment_command input_file output_subdir num_digits)
           (combine (seq segment_num (List.length segments)) segments)
  /\ snd (write_segments engine input_file output_subdir num_digits
                         segment_num segments) = Ok tt.
Proof.
  intros failing segments Hfail. split.
  - exact (create_segment_failure input_file _ (fst seg) (Some (snd seg)) Hfail).
  - apply write_segments_commands.
Qed.

(** A run whose detection succeeds writes the segments of the plan,
    numbered from 1, after detecting and probing. *)
Lemma segment_audio_planned (input_file output_dir : string)
    (target_segment_length : Z) (min_silence_duration : float)
    (silence_threshold : Z) (logf logd : list event)
    (silence_periods : list silence) (D : float) (plan : list segment) :
  find_silent_periods engine input_file min_silence_duration silence_threshold
  = (logf, Ok (Some silence_periods)) ->
  get_audio_duration engine input_file = (logd, Ok D) ->
  plan_segments silence_periods D target_segment_length = Ok plan ->
  exists log0,
    segment_audio engine input_file output_dir target_segment_length
                  min_silence_duration silence_threshold
    = (log0 ++ fst (write_segments engine input_file
                      (output_subdir_of input_file output_dir)
                      (String.length (Text.str_nat (List.length plan))) 1 plan),
       Ok tt).
Proof.
  intros Hfind Hdur Hplan. unfold plan_segments in Hplan.
  destruct (cut_loop target_segment_length silence_periods 0 [])
    as [[c cuts]|e] eqn:Hcut; [|discriminate].
  cbn [rbind add_remainder] in Hplan. injection Hplan as Hplan.
  unfold segment_audio.
  rewrite (bind_ok (emit _) _ _ tt eq_refl).
  rewrite (bind_ok _ _ _ _ Hfind). cbn iota.
  rewrite Hcut. unfold lift. rewrite (bind_ok _ _ _ (c, cuts) eq_refl).
  cbn iota. rewrite (bind_ok _ _ _ _ Hdur).
  set (subdir := output_subdir_of input_file output_dir).
  destruct (c <? D)%float.
  - rewrite (bind_ok (get_audio_duration engine input_file) _ _ _ Hdur).
    cbn [ret fst snd]. rewrite (bind_ok _ _ _ (cuts ++ [(c, D)]) eq_refl).
    rewrite Hplan.
    destruct (write_segments_commands input_file subdir
                (String.length (Text.str_nat (List.length plan))) plan 1) as [_ Hok].
    destruct (write_segments engine input_file subdir _ 1 plan) as [logw r].
    cbn [fst snd] in *. subst r.
    exists ([Makedirs subdir] ++ logf ++ [] ++ logd ++ logd ++ []).
    rewrite <- !app_assoc. reflexivity.
  - rewrite (bind_ok (ret cuts) _ [] cuts eq_refl).
    rewrite Hplan.
    destruct (write_segments_commands input_file subdir
                (String.length (Text.str_nat (List.length plan))) plan 1) as [_ Hok].
    destruct (write_segments engine input_file subdir _ 1 plan) as [logw r].
    cbn [fst snd] in *. subst r.
    exists ([Makedirs subdir] ++ logf ++ [] ++ logd ++ []).
    rewrite <- !app_assoc. reflexivity.
Qed.

(** C8: a run that plans [N] segments writes them to the files numbered 1
    to [N], in order; each number is padded with zeros to the width of [N],
    its count of decimal digits. *)
Theorem segment_audio_names (input_file output_dir : string)
    (target_segment_length : Z) (min_silence_duration : float)
    (silence_threshold : Z) (logf logd : list event)
    (silence_periods : list silence) (D : float) (plan : list segment) :
  find_silent_periods engine input_file min_silence_duration silence_threshold
  = (logf, Ok (Some silence_periods)) ->
  get_audio_duration engine input_file = (logd, Ok D) ->
  plan_segments silence_periods D target_segment_length = Ok plan ->
  let N := List.length plan in
  let width := String.length (Text.str_nat N) in
  let subdir := output_subdir_of input_file output_dir in
  (exists log0,
     segment_audio engine input_file output_dir target_segment_length
                   min_silence_duration silence_threshold
     = (log0 ++ fst (write_segments engine input_file subdir width 1 plan), Ok tt))
  /\ map (fun command => last command EmptyString)
         (commands (fst (write_segments engine input_file subdir width 1 plan)))
     = map (fun i => path_join subdir [(Text.format_0d width i ++ ".mp3")%string])
           (seq 1 N)
  /\ (forall i, (1 <= i <= N)%nat ->
        Text.format_0d width i
        = (Text.zeros (width - String.length (Text.str_nat i)) ++ Text.str_nat i)%string
        /\ String.length (Text.format_0d width i) = width)
  /\ ((0 < N)%nat -> (10 ^ (width - 1) <= N < 10 ^ width)%nat).
Proof.
  intros Hfind Hdur Hplan N width subdir. split; [|split; [|split]].
  - exact (segment_audio_planned input_file output_dir target_segment_length
             min_silence_duration silence_threshold logf logd silence_periods D plan
             Hfind Hdur Hplan).
  - destruct (write_segments_commands input_file subdir width plan 1) as [-> _].
    rewrite map_map. subst N. clearbody width. clear Hplan.
    generalize 1%nat as n. induction plan as [|seg rest IH]; intros n; [reflexivity|].
    cbn [List.length seq combine map]. now rewrite IH.
  - intros i Hi. split; [reflexivity|].
    apply format_0d_length. apply str_nat_length_mono. lia.
  - apply str_nat_bounds.
Qed.

End Writer.


(** * The script on concrete runs *)

Section Runs.

#[local] Existing Instance Sample.builtins.

Open Scope float_scope.

(** The scenario of 700 seconds cut at a target of 300. *)
Example plan_700 :
  plan_segments Sample.silences 700 300
  = Ok [(0, 296); (296, 599.5); (599.5, 700)].
Proof. reflexivity. Qed.

(** A file shorter than the threshold is one segment. *)
Example plan_100 :
  plan_segments [{| start := 40; end_ := 41 |}; {| start := 80; end_ := 82 |}] 100 300
  = Ok [(0, 100)].
Proof. reflexivity. Qed.

(** No silence: one segment; no silence and no duration: no segment. *)
Example plan_no_silence :
  plan_segments [] 700 300 = Ok [(0, 700)] /\ plan_segments [] 0 300 = Ok [].
Proof. split; reflexivity. Qed.

(** A target length too large for a float: the first silence raises. *)
Example plan_overflow :
  plan_segments Sample.silences 700 (2 ^ 1024) = Raise OverflowError
  /\ plan_segments [] 700 (2 ^ 1024) = Ok [(0, 700)].
Proof. split; reflexivity. Qed.

(** The lines of a detection run and their silences. *)
Example parse_detection_lines :
  parse_silence_periods Sample.detection_lines = Ok Sample.silences.
Proof. reflexivity. Qed.

(** Three segments are named on one digit, ten on two. *)
Example names_3 :
  map (segment_name (String.length (Text.str_nat 3))) (seq 1 3)
  = ["1.mp3"; "2.mp3"; "3.mp3"]%string.
Proof. reflexivity. Qed.

Example names_10 :
  map (segment_name (String.length (Text.str_nat 10))) (seq 1 10)
  = ["01.mp3"; "02.mp3"; "03.mp3"; "04.mp3"; "05.mp3";
     "06.mp3"; "07.mp3"; "08.mp3"; "09.mp3"; "10.mp3"]%string.
Proof. reflexivity. Qed.

Lemma plan_segments_greedy_witness :
  float_of_int 300 = Ok 300
  /\ plan_segments Sample.silences 700 300
     = Ok (Spec.greedy_plan Sample.silences 700 300).
Proof.
  split; [reflexivity|].
  apply (plan_segments_greedy Sample.silences 700 300 300). reflexivity.
Defined.

(** C2, as stated, fails: a silence that ends after the duration makes the
    last segment end after it. *)
Lemma plan_overruns_duration :
  exists plan last,
    plan_segments [{| start := 400; end_ := 500 |}] 400 300 = Ok plan
    /\ last_error plan = Some last
    /\ (snd last =? 400) = false.
Proof. exists [(0, 500)], (0, 500). repeat split. Qed.

Lemma plan_segments_tiles_witness :
  float_of_int 300 = Ok 300
  /\ (0 <=? 700) = true
  /\ Forall (fun s => (end_ s <=? 700) = true) Sample.silences
  /\ exists plan,
       plan_segments Sample.silences 700 300 = Ok plan
       /\ (forall i x y, nth_error plan i = Some x -> nth_error plan (S i) = Some y ->
                         snd x = fst y)
       /\ (forall x, hd_error plan = Some x -> fst x = 0)
       /\ (forall x, last_error plan = Some x -> (snd x =? 700) = true)
       /\ ((0 <? 700) = true -> plan <> [])
       /\ ((0 <= 300)%Z -> Forall forward plan).
Proof.
  split; [reflexivity|]. split; [reflexivity|].
  split; [repeat constructor|].
  apply (plan_segments_tiles Sample.silences 700 300 300);
    [reflexivity | reflexivity | repeat constructor].
Defined.



Lemma plan_segments_positive_witness :
  (0 < 300)%Z
  /\ float_of_int 300 = Ok 300
  /\ exists plan,
       plan_segments Sample.silences 700 300 = Ok plan /\ Forall positive_length plan.
Proof.
  split; [reflexivity|]. split; [reflexivity|].
  apply (plan_segments_positive Sample.silences 700 300 300); reflexivity.
Defined.

Lemma parse_silence_periods_pairs_witness :
  read_markers Sample.detection_lines
  = Ok [Spec.No_marker; Spec.Silence_start 295; Spec.Silence_end 296;
        Spec.No_marker; Spec.Silence_start 598; Spec.Silence_end 599.5;
        Spec.Silence_start 699]
  /\ parse_silence_periods Sample.detection_lines
     = Ok (Spec.pair_markers None
             [Spec.No_marker; Spec.Silence_start 295; Spec.Silence_end 296;
              Spec.No_marker; Spec.Silence_start 598; Spec.Silence_end 599.5;
              Spec.Silence_start 699]).
Proof.
  split; [reflexivity|].
  apply (parse_silence_periods_pairs Sample.detection_lines). reflexivity.
Defined.

Lemma scan_line_without_silencedetect_witness :
  Text.py_in "silencedetect" "silence_start: 12.5 silence_end: 13.0" = false
  /\ scan_line (Some 295, Sample.silences) "silence_start: 12.5 silence_end: 13.0"
     = Ok (Some 295, Sample.silences).
Proof.
  split; [reflexivity|].
  apply (scan_line_without_silencedetect (Some 295) Sample.silences). reflexivity.
Defined.


Lemma write_continues_after_failure_witness :
  returncode
    (Sample.engine "/out/book/2.mp3"
       (segment_command Sample.input_file "/out/book" 1 (2%nat, (296, 599.5)))) <> 0%Z
  /\ create_segment (Sample.engine "/out/book/2.mp3") Sample.input_file
       (path_join "/out/book"%string [segment_name 1 2]) 296 (Some 599.5)
     = ([Run (segment_command Sample.input_file "/out/book" 1 (2%nat, (296, 599.5)));
         Print (Error_creating_segment
                  (segment_command Sample.input_file "/out/book" 1 (2%nat, (296, 599.5))));
         Print (Captured_stderr
                  (segment_command Sample.input_file "/out/book" 1 (2%nat, (296, 599.5))))],
        Ok false)
  /\ commands (fst (write_segments (Sample.engine "/out/book/2.mp3") Sample.input_file
                                   "/out/book" 1 1
                                   [(0, 296); (296, 599.5); (599.5, 700)]))
     = map (segment_command Sample.input_file "/out/book" 1)
           [(1%nat, (0, 296)); (2%nat, (296, 599.5)); (3%nat, (599.5, 700))]
  /\ snd (write_segments (Sample.engine "/out/book/2.mp3") Sample.input_file
                         "/out/book" 1 1
                         [(0, 296); (296, 599.5); (599.5, 700)]) = Ok tt.
Proof.
  split; [discriminate|].
  apply (write_continues_after_failure (Sample.engine "/out/book/2.mp3")
           Sample.input_file "/out/book" 1 1 [(0, 296)] (296, 599.5) [(599.5, 700)]).
  discriminate.
Defined.

Lemma segment_audio_names_witness :
  find_silent_periods (Sample.engine "") Sample.input_file 0.5 (-30)
  = ([Run (find_silent_periods_command Sample.input_file 0.5 (-30))],
     Ok (Some Sample.silences))
  /\ get_audio_duration (Sample.engine "") Sample.input_file
     = ([Run (get_audio_duration_command Sample.input_file)], Ok 700)
  /\ plan_segments Sample.silences 700 300 = Ok Sample.plan
  /\ map (fun command => last command EmptyString)
         (commands (fst (write_segments (Sample.engine "") Sample.input_file
                                        "/out/book" 1 1 Sample.plan)))
     = ["/out/book/1.mp3"; "/out/book/2.mp3"; "/out/book/3.mp3"]%string.
Proof.
  split; [reflexivity|]. split; [reflexivity|]. split; [reflexivity|].
  exact (proj1 (proj2
    (segment_audio_names (Sample.engine "") Sample.input_file Sample.output_dir
       300 0.5 (-30)
       [Run (find_silent_periods_command Sample.input_file 0.5 (-30))]
       [Run (get_audio_duration_command Sample.input_file)]
       Sample.silences 700 Sample.plan eq_refl eq_refl eq_refl))).
Defined.

End Runs.

(** * More on the planner *)

Section PlannerMore.

Open Scope float_scope.

(** A loop that returns is the fold of its body for some threshold. *)
Lemma cut_loop_ok_fold (L : Z) (silences : list silence) (cursor : float)
    (segments : list segment) (r : float * list segment) :
  cut_loop L silences cursor segments = Ok r ->
  exists t, r = fold_left (cut_step t) silences (cursor, segments).
Proof.
  destruct silences as [|s rest].
  - intros [= <-]. exists 0. reflexivity.
  - destruct (float_of_int L) as [l|e] eqn:Hl.
    + rewrite (cut_loop_fold L l (s :: rest) Hl). intros [= <-].
      exists (l * point_eight). reflexivity.
    + cbn [cut_loop]. unfold int_mul_float. rewrite Hl. discriminate.
Qed.

Lemma plan_segments_ok_fold (silences : list silence) (D : float) (L : Z)
    (plan : list segment) :
  plan_segments silences D L = Ok plan ->
  exists t, plan = add_remainder D (fold_left (cut_step t) silences (0, [])).
Proof.
  unfold plan_segments.
  destruct (cut_loop L silences 0 []) as [r|e] eqn:H; [|discriminate].
  intros [= <-]. destruct (cut_loop_ok_fold L silences 0 [] r H) as [t ->].
  now exists t.
Qed.

(** The loop only makes segments from where it stands to the end of a
    silence. *)
Lemma cut_fold_ends (t : float) (S E : float -> Prop) (silences : list silence) :
  (forall s, In s silences -> E (end_ s)) ->
  (forall x, E x -> S x) ->
  forall (cursor : float) (segments : list segment),
    S cursor ->
    Forall (fun seg : segment => S (fst seg) /\ E (snd seg)) segments ->
    S (fst (fold_left (cut_step t) silences (cursor, segments)))
    /\ Forall (fun seg : segment => S (fst seg) /\ E (snd seg))
              (snd (fold_left (cut_step t) silences (cursor, segments))).
Proof.
  intros HE HS. induction silences as [|s rest IH]; intros cursor segments Hc Hacc;
    cbn [fold_left].
  - now split.
  - rewrite cut_step_eq.
    assert (HEs : E (end_ s)) by (apply HE; now left).
    assert (HE' : forall s', In s' rest -> E (end_ s')) by (intros; apply HE; now right).
    destruct (t <=? end_ s - cursor).
    + apply (IH HE'); [now apply HS|].
      apply Forall_app. split; [exact Hacc|]. constructor; [|constructor]. now split.
    + now apply (IH HE').
Qed.

(** X1: whenever the planner returns a plan, every segment of it starts at
    0 or at the end of a silence, and ends at the end of a silence or at the
    duration: the file is only ever cut where a silence ends. *)
Theorem plan_cuts_at_silence_ends (silences : list silence) (D : float) (L : Z)
    (plan : list segment) :
  plan_segments silences D L = Ok plan ->
  forall seg, In seg plan ->
    (fst seg = 0 \/ exists s, In s silences /\ fst seg = end_ s)
    /\ (snd seg = D \/ exists s, In s silences /\ snd seg = end_ s).
Proof.
  intros Hplan. destruct (plan_segments_ok_fold silences D L plan Hplan) as [t ->].
  pose proof (cut_fold_ends t
                (fun x => x = 0 \/ exists s, In s silences /\ x = end_ s)
                (fun x => exists s, In s silences /\ x = end_ s)
                silences
                (fun s H => ex_intro _ s (conj H eq_refl))
                (fun x H => or_intror H)
                0 [] (or_introl eq_refl) (Forall_nil _)) as [Hc Hcuts].
  cbv beta in Hc, Hcuts. clear Hplan.
  destruct (fold_left (cut_step t) silences (0, [])) as [c cuts].
  cbn [fst snd] in Hc, Hcuts. unfold add_remainder.
  rewrite Forall_forall in Hcuts.
  assert (Hin : forall seg, In seg cuts ->
            (fst seg = 0 \/ exists s, In s silences /\ fst seg = end_ s)
            /\ (snd seg = D \/ exists s, In s silences /\ snd seg = end_ s)).
  { intros seg H. destruct (Hcuts seg H) as [H1 H2]. split; [exact H1 | now right]. }
  destruct (c <? D); [|exact Hin].
  intros seg H. apply in_app_or in H. destruct H as [H|[<-|[]]]; [now apply Hin|].
  cbn [fst snd]. split; [exact Hc | now left].
Qed.

Lemma cut_fold_length (t : float) (silences : list silence) :
  forall cursor segments,
    (List.length (snd (fold_left (cut_step t) silences (cursor, segments)))
     <= List.length segments + List.length silences)%nat.
Proof.
  induction silences as [|s rest IH]; intros cursor segments; cbn [fold_left].
  - cbn. lia.
  - rewrite cut_step_eq. destruct (t <=? end_ s - cursor).
    + specialize (IH (end_ s) (segments ++ [(cursor, end_ s)])).
      rewrite length_app in IH. cbn [List.length] in *. lia.
    + specialize (IH cursor segments). cbn [List.length]. lia.
Qed.

(** X2: a plan has at most one segment more than there are silences. *)
Theorem plan_length_bound (silences : list silence) (D : float) (L : Z)
    (plan : list segment) :
  plan_segments silences D L = Ok plan ->
  (List.length plan <= List.length silences + 1)%nat.
Proof.
  intros Hplan. destruct (plan_segments_ok_fold silences D L plan Hplan) as [t ->].
  pose proof (cut_fold_length t silences 0 []) as H.
  destruct (fold_left (cut_step t) silences (0, [])) as [c cuts].
  cbn [snd List.length] in H. unfold add_remainder.
  destruct (c <? D); [rewrite length_app; cbn [List.length]|]; lia.
Qed.

Lemma cut_loop_ends_only (L : Z) (a : list silence) :
  forall b cursor segments,
    map end_ a = map end_ b ->
    cut_loop L a cursor segments = cut_loop L b cursor segments.
Proof.
  induction a as [|s a IH]; intros [|s' b] cursor segments H; try discriminate.
  - reflexivity.
  - cbn [map] in H. injection H as Hs Hrest. cbn [cut_loop]. rewrite Hs.
    destruct (int_mul_float L point_eight) as [t|e]; [|reflexivity]. cbn [rbind].
    destruct (t <=? end_ s' - cursor); now apply IH.
Qed.

(** X3: the planner never looks at where a silence starts: two silence
    sequences with the same ends, in the same order, have the same plan (or
    fail alike). *)
Theorem plan_ignores_starts (a b : list silence) (D : float) (L : Z) :
  map end_ a = map end_ b ->
  plan_segments a D L = plan_segments b D L.
Proof.
  intros H. unfold plan_segments.
  now rewrite (cut_loop_ends_only L a b 0 [] H).
Qed.

Lemma cut_fold_none (t : float) (silences : list silence) (cursor : float)
    (segments : list segment) :
  Forall (fun s => (t <=? end_ s - cursor) = false) silences ->
  fold_left (cut_step t) silences (cursor, segments) = (cursor, segments).
Proof.
  induction 1 as [|s rest Hs _ IH]; cbn [fold_left]; [reflexivity|].
  now rewrite cut_step_eq, Hs.
Qed.

(** X4: when no silence ends as far as the threshold from the start of the
    file, nothing is cut: a file of positive duration is one segment, the
    whole file. *)
Theorem plan_single_when_short (silences : list silence) (D : float) (L : Z) (l : float) :
  float_of_int L = Ok l ->
  Forall (fun s => (l * point_eight <=? end_ s - 0) = false) silences ->
  (0 <? D) = true ->
  plan_segments silences D L = Ok [(0, D)].
Proof.
  intros Hl Hs HD. rewrite (plan_segments_fold silences D L l Hl).
  rewrite (cut_fold_none _ silences 0 [] Hs). unfold add_remainder. now rewrite HD.
Qed.

Lemma cut_loop_app (L : Z) (a b : list silence) :
  forall cursor segments,
    cut_loop L (a ++ b) cursor segments
    = rbind (cut_loop L a cursor segments)
            (fun r => cut_loop L b (fst r) (snd r)).
Proof.
  induction a as [|s a IH]; intros cursor segments; [reflexivity|].
  cbn [app cut_loop].
  destruct (int_mul_float L point_eight) as [t|e]; [|reflexivity]. cbn [rbind].
  destruct (t <=? end_ s - cursor); apply IH.
Qed.

Lemma cut_fold_extends (t : float) (silences : list silence) :
  forall cursor segments,
    exists more,
      snd (fold_left (cut_step t) silences (cursor, segments)) = segments ++ more.
Proof.
  induction silences as [|s rest IH]; intros cursor segments; cbn [fold_left].
  - exists []. now rewrite app_nil_r.
  - rewrite cut_step_eq. destruct (t <=? end_ s - cursor).
    + destruct (IH (end_ s) (segments ++ [(cursor, end_ s)])) as [more ->].
      exists ((cursor, end_ s) :: more). now rewrite <- app_assoc.
    + apply IH.
Qed.

(** X5: silences detected later never change the cuts already made: the
    cuts of a silence sequence open the plan of every longer sequence that
    starts with it. *)
Theorem plan_keeps_earlier_cuts (a b : list silence) (D : float) (L : Z)
    (cursor : float) (cuts plan : list segment) :
  cut_loop L a 0 [] = Ok (cursor, cuts) ->
  plan_segments (a ++ b) D L = Ok plan ->
  exists more, plan = cuts ++ more.
Proof.
  intros Ha. unfold plan_segments. rewrite cut_loop_app, Ha. cbn [rbind fst snd].
  destruct (cut_loop L b cursor cuts) as [r|e] eqn:Hb; [|discriminate].
  intros [= <-]. destruct (cut_loop_ok_fold L b cursor cuts r Hb) as [t ->].
  destruct (cut_fold_extends t b cursor cuts) as [more Hmore].
  destruct (fold_left (cut_step t) b (cursor, cuts)) as [c cuts'].
  cbn [snd] in Hmore. subst cuts'. unfold add_remainder.
  destruct (c <? D).
  - exists (more ++ [(c, D)]). now rewrite app_assoc.
  - now exists more.
Qed.

End PlannerMore.

(** * More on the detector *)

Section DetectorMore.

Context {builtins : Builtins}.
Variable engine : Engine.

(** The detector runs one command, whatever comes of it. *)
Lemma find_silent_periods_commands (input_file : string)
    (min_silence_duration : float) (silence_threshold : Z) :
  commands (fst (find_silent_periods engine input_file min_silence_duration
                                     silence_threshold))
  = [find_silent_periods_command input_file min_silence_duration silence_threshold].
Proof.
  unfold find_silent_periods, subprocess_run, bind, emit, ret, lift.
  destruct (returncode _ =? 0)%Z; [|reflexivity].
  now destruct (parse_silence_periods _).
Qed.

(** X6: the detector returns [None] exactly when the engine exits with a
    code other than 0: a run of the engine that succeeds gives a list of
    periods, possibly empty, or an exception, never [None]. *)
Theorem find_silent_periods_none_iff (input_file : string)
    (min_silence_duration : float) (silence_threshold : Z) :
  snd (find_silent_periods engine input_file min_silence_duration silence_threshold)
  = Ok None
  <-> returncode
        (engine (find_silent_periods_command input_file min_silence_duration
                                             silence_threshold)) <> 0%Z.
Proof.
  unfold find_silent_periods, subprocess_run, bind, emit, ret, lift.
  destruct (Z.eqb_spec
              (returncode
                 (engine (find_silent_periods_command input_file min_silence_duration
                                                      silence_threshold))) 0)
    as [Hz|Hnz].
  - split; [|congruence].
    destruct (parse_silence_periods _); cbn; discriminate.
  - split; [intros _; exact Hnz | reflexivity].
Qed.

(** A start line whose time cannot be read stops the detector with the
    exception of the reading. *)
Lemma find_silent_periods_unread_start (input_file : string)
    (min_silence_duration : float) (silence_threshold : Z)
    (before after : list string) (line : string) (st : scan_state) (e : exn) :
  let command :=
    find_silent_periods_command input_file min_silence_duration silence_threshold in
  returncode (engine command) = 0%Z ->
  stderr_lines (engine command) = before ++ line :: after ->
  scan_lines (None, []) before = Ok st ->
  is_start_line line = true ->
  marker_value "silence_start:" line = Raise e ->
  find_silent_periods engine input_file min_silence_duration silence_threshold
  = ([Run command], Raise e).
Proof.
  intros command Hz Hlines Hbefore Hstart He.
  unfold find_silent_periods, subprocess_run, bind, emit, ret, lift.
  fold command. rewrite Hz. cbn [Z.eqb]. cbv beta iota zeta. rewrite Hlines.
  unfold parse_silence_periods. rewrite scan_lines_app, Hbefore. cbn [rbind scan_lines].
  unfold is_start_line in Hstart. apply andb_prop in Hstart. destruct Hstart as [H1 H2].
  destruct st as [start_time silence_periods].
  unfold scan_line. rewrite H1, H2, He. reflexivity.
Qed.

(** X7: a start line in which [silence_start:] is part of a longer word, so
    that no word of the line is the key, makes the detector raise
    ValueError: the periods found so far are not returned, and neither is
    [None]. *)
Theorem find_silent_periods_key_not_a_word (input_file : string)
    (min_silence_duration : float) (silence_threshold : Z)
    (before after : list string) (line : string) (st : scan_state) :
  let command :=
    find_silent_periods_command input_file min_silence_duration silence_threshold in
  returncode (engine command) = 0%Z ->
  stderr_lines (engine command) = before ++ line :: after ->
  scan_lines (None, []) before = Ok st ->
  is_start_line line = true ->
  Text.index "silence_start:" (Text.split line) = None ->
  find_silent_periods engine input_file min_silence_duration silence_threshold
  = ([Run command], Raise ValueError).
Proof.
  intros command Hz Hlines Hbefore Hstart Hidx.
  apply (find_silent_periods_unread_start input_file min_silence_duration
           silence_threshold before after line st ValueError Hz Hlines Hbefore Hstart).
  unfold marker_value. now rewrite Hidx.
Qed.

(** X8: a start line that ends with the key, with no word after it, makes
    the detector raise IndexError. *)
Theorem find_silent_periods_no_value (input_file : string)
    (min_silence_duration : float) (silence_threshold : Z)
    (before after : list string) (line : string) (st : scan_state) (i : nat) :
  let command :=
    find_silent_periods_command input_file min_silence_duration silence_threshold in
  returncode (engine command) = 0%Z ->
  stderr_lines (engine command) = before ++ line :: after ->
  scan_lines (None, []) before = Ok st ->
  is_start_line line = true ->
  Text.index "silence_start:" (Text.split line) = Some i ->
  List.length (Text.split line) = S i ->
  find_silent_periods engine input_file min_silence_duration silence_threshold
  = ([Run command], Raise IndexError).
Proof.
  intros command Hz Hlines Hbefore Hstart Hidx Hlen.
  apply (find_silent_periods_unread_start input_file min_silence_duration
           silence_threshold before after line st IndexError Hz Hlines Hbefore Hstart).
  unfold marker_value. rewrite Hidx.
  assert (Hnth : nth_error (Text.split line) (i + 1) = None).
  { apply nth_error_None. lia. }
  now rewrite Hnth.
Qed.

(** Each period takes one start line and one end line. *)
Lemma scan_lines_counts (lines : list string) :
  forall (st st' : scan_state),
    scan_lines st lines = Ok st' ->
    (List.length (snd st') + pending_count (fst st')
     <= List.length (snd st) + pending_count (fst st)
        + count_lines is_start_line lines)%nat
    /\ (List.length (snd st')
        <= List.length (snd st) + count_lines is_end_line lines)%nat.
Proof.
  unfold count_lines.
  induction lines as [|line rest IH]; intros st st' H.
  - injection H as <-. cbn. lia.
  - cbn [scan_lines] in H.
    destruct (scan_line st line) as [st1|e] eqn:H1; [|discriminate].
    cbn [rbind] in H. destruct (IH st1 st' H) as [IH1 IH2]. clear IH H.
    cbn [filter]. unfold is_start_line, is_end_line in *.
    destruct st as [start_time silence_periods]. unfold scan_line in H1.
    destruct (Text.py_in "silencedetect" line); cbn [andb negb].
    + destruct (Text.py_in "silence_start:" line); cbn [andb negb].
      * destruct (marker_value "silence_start:" line) as [t|e]; [|discriminate].
        injection H1 as <-. cbn [fst snd pending_count List.length] in *.
        destruct start_time; cbn [pending_count]; lia.
      * destruct (Text.py_in "silence_end:" line).
        -- destruct start_time as [s|].
           ++ destruct (marker_value "silence_end:" line) as [t|e]; [|discriminate].
              injection H1 as <-. cbn [fst snd pending_count List.length] in *.
              rewrite length_app in *. cbn [List.length] in *. lia.
           ++ injection H1 as <-. cbn [fst snd List.length] in *. lia.
        -- injection H1 as <-. cbn [fst snd List.length] in *. lia.
    + injection H1 as <-. cbn [fst snd List.length] in *. lia.
Qed.

(** X9: the detector finds no more periods than there are start lines, and
    no more than there are end lines. *)
Theorem parse_periods_bounded (lines : list string) (silence_periods : list silence) :
  parse_silence_periods lines = Ok silence_periods ->
  (List.length silence_periods <= count_lines is_start_line lines)%nat
  /\ (List.length silence_periods <= count_lines is_end_line lines)%nat.
Proof.
  unfold parse_silence_periods.
  destruct (scan_lines (None, []) lines) as [st|e] eqn:H; [|discriminate].
  intros [= <-]. destruct (scan_lines_counts lines (None, []) st H) as [H1 H2].
  cbn [fst snd List.length pending_count] in *. lia.
Qed.

Lemma scan_lines_extends (lines : list string) :
  forall (st st' : scan_state),
    scan_lines st lines = Ok st' -> exists more, snd st' = snd st ++ more.
Proof.
  induction lines as [|line rest IH]; intros st st' H.
  - injection H as <-. exists []. now rewrite app_nil_r.
  - cbn [scan_lines] in H.
    destruct (scan_line st line) as [st1|e] eqn:H1; [|discriminate].
    cbn [rbind] in H. destruct (IH st1 st' H) as [more Hmore]. rewrite Hmore.
    destruct st as [start_time silence_periods]. unfold scan_line in H1.
    destruct (Text.py_in "silencedetect" line);
      [|injection H1 as <-; now exists more].
    destruct (Text.py_in "silence_start:" line).
    + destruct (marker_value "silence_start:" line) as [t|e]; [|discriminate].
      injection H1 as <-. now exists more.
    + destruct (Text.py_in "silence_end:" line);
        [|injection H1 as <-; now exists more].
      destruct start_time as [s|]; [|injection H1 as <-; now exists more].
      destruct (marker_value "silence_end:" line) as [t|e]; [|discriminate].
      injection H1 as <-. cbn [snd].
      exists ({| start := s; end_ := t |} :: more). now rewrite <- app_assoc.
Qed.

(** X10: lines that follow never change the periods already found: the
    periods of a stream open the periods of every longer stream that starts
    with it. *)
Theorem parse_keeps_earlier_periods (lines more_lines : list string)
    (found longer : list silence) :
  parse_silence_periods lines = Ok found ->
  parse_silence_periods (lines ++ more_lines) = Ok longer ->
  exists more, longer = found ++ more.
Proof.
  unfold parse_silence_periods. rewrite scan_lines_app.
  destruct (scan_lines (None, []) lines) as [st|e]; [|discriminate].
  cbn [rbind]. intros [= <-].
  destruct (scan_lines st more_lines) as [st'|e] eqn:H; [|discriminate].
  intros [= <-]. exact (scan_lines_extends more_lines st st' H).
Qed.

(** The times the scan keeps are times it read on lines of the stream. *)
Lemma scan_lines_sources (S E : float -> Prop) (lines : list string) :
  (forall line t, In line lines -> is_start_line line = true ->
                  marker_value "silence_start:" line = Ok t -> S t) ->
  (forall line t, In line lines -> is_end_line line = true ->
                  marker_value "silence_end:" line = Ok t -> E t) ->
  forall (st st' : scan_state),
    (forall s, fst st = Some s -> S s) ->
    Forall (fun p => S (start p) /\ E (end_ p)) (snd st) ->
    scan_lines st lines = Ok st' ->
    Forall (fun p => S (start p) /\ E (end_ p)) (snd st').
Proof.
  induction lines as [|line rest IH]; intros HS HE st st' Hp Hacc H.
  - now injection H as <-.
  - cbn [scan_lines] in H.
    destruct (scan_line st line) as [st1|e] eqn:H1; [|discriminate].
    cbn [rbind] in H.
    assert (HS' : forall l t, In l rest -> is_start_line l = true ->
                    marker_value "silence_start:" l = Ok t -> S t)
      by (intros l t Hin; apply HS; now right).
    assert (HE' : forall l t, In l rest -> is_end_line l = true ->
                    marker_value "silence_end:" l = Ok t -> E t)
      by (intros l t Hin; apply HE; now right).
    specialize (HS line). specialize (HE line).
    unfold is_start_line in HS. unfold is_end_line in HE.
    destruct st as [start_time silence_periods]. cbn [fst snd] in Hp, Hacc.
    unfold scan_line in H1.
    destruct (Text.py_in "silencedetect" line); cbn [andb negb] in HS, HE;
      [|injection H1 as <-;
       refine (IH HS' HE' _ st' _ _ H); [exact Hp | exact Hacc]].
    destruct (Text.py_in "silence_start:" line); cbn [andb negb] in HS, HE.
    + destruct (marker_value "silence_start:" line) as [t|e]; [|discriminate].
      injection H1 as <-. refine (IH HS' HE' _ st' _ _ H); [|exact Hacc].
      cbn [fst]. intros s [= <-]. apply (HS t); auto. now left.
    + destruct (Text.py_in "silence_end:" line);
        [|injection H1 as <-;
       refine (IH HS' HE' _ st' _ _ H); [exact Hp | exact Hacc]].
      destruct start_time as [s|];
        [|injection H1 as <-;
       refine (IH HS' HE' _ st' _ _ H); [exact Hp | exact Hacc]].
      destruct (marker_value "silence_end:" line) as [t|e]; [|discriminate].
      injection H1 as <-. refine (IH HS' HE' _ st' _ _ H); [discriminate|].
      cbn [snd]. apply Forall_app. split; [exact Hacc|].
      constructor; [|constructor]. cbn [start end_]. split.
      * now apply Hp.
      * apply (HE t); auto. now left.
Qed.

(** X11: every period the detector returns starts at a time read on a
    start line of the stream and ends at a time read on an end line of it:
    the detector makes up no time. *)
Theorem parse_periods_from_lines (lines : list string) (silence_periods : list silence)
    (p : silence) :
  parse_silence_periods lines = Ok silence_periods ->
  In p silence_periods ->
  (exists line, In line lines /\ is_start_line line = true
                /\ marker_value "silence_start:" line = Ok (start p))
  /\ (exists line, In line lines /\ is_end_line line = true
                   /\ marker_value "silence_end:" line = Ok (end_ p)).
Proof.
  unfold parse_silence_periods.
  destruct (scan_lines (None, []) lines) as [st|e] eqn:H; [|discriminate].
  intros [= <-] Hin.
  pose proof (scan_lines_sources
                (fun t => exists line, In line lines /\ is_start_line line = true
                                       /\ marker_value "silence_start:" line = Ok t)
                (fun t => exists line, In line lines /\ is_end_line line = true
                                       /\ marker_value "silence_end:" line = Ok t)
                lines
                (fun line t H1 H2 H3 => ex_intro _ line (conj H1 (conj H2 H3)))
                (fun line t H1 H2 H3 => ex_intro _ line (conj H1 (conj H2 H3)))
                (None, []) st) as Hsrc.
  cbn [fst snd] in Hsrc.
  specialize (Hsrc ltac:(discriminate) (Forall_nil _) H).
  rewrite Forall_forall in Hsrc. exact (Hsrc p Hin).
Qed.

End DetectorMore.

(** * More on the probe and the whole run *)

Section RunMore.

Context {builtins : Builtins}.
Variable engine : Engine.

Open Scope float_scope.

(** X12: the probe raises only ValueError, and only when the engine
    succeeded and printed something [float()] does not read; when the engine
    fails the probe returns a value, it does not raise. *)
Theorem get_audio_duration_raises_iff (input_file : string) (e : exn) :
  snd (get_audio_duration engine input_file) = Raise e
  <-> e = ValueError
      /\ returncode (engine (get_audio_duration_command input_file)) = 0%Z
      /\ py_float (Text.strip (stdout (engine (get_audio_duration_command input_file))))
         = None.
Proof.
  unfold get_audio_duration, subprocess_run, bind, emit, ret, lift.
  destruct (Z.eqb_spec (returncode (engine (get_audio_duration_command input_file))) 0)
    as [Hz|Hnz].
  - destruct (py_float _) as [d|]; cbn.
    + split; [discriminate | intros (_ & _ & H); discriminate].
    + split; [intros [= <-]; auto | intros (-> & _); reflexivity].
  - cbn. split; [discriminate | intros (_ & H & _); contradiction].
Qed.

(** When the engine fails the probe prints the error and returns 0. *)
Lemma get_audio_duration_failure (input_file : string) :
  let command := get_audio_duration_command input_file in
  returncode (engine command) <> 0%Z ->
  get_audio_duration engine input_file
  = ([Run command; Print (Error_getting_duration command);
      Print (Captured_stderr command)], Ok 0).
Proof.
  intros command H. apply Z.eqb_neq in H.
  unfold get_audio_duration, subprocess_run, bind, emit, ret.
  fold command. now rewrite H.
Qed.

Lemma float_of_int_raise (L : Z) (e : exn) :
  float_of_int L = Raise e -> e = OverflowError.
Proof.
  unfold float_of_int.
  destruct (binary_normalize prec emax L 0 false); congruence.
Qed.

(** The commands of a run that detects, plans and probes. *)
Lemma segment_audio_planned_commands (input_file output_dir : string)
    (target_segment_length : Z) (min_silence_duration : float)
    (silence_threshold : Z) (silence_periods : list silence)
    (cursor : float) (cuts : list segment) (D : float) :
  snd (find_silent_periods engine input_file min_silence_duration silence_threshold)
  = Ok (Some silence_periods) ->
  cut_loop target_segment_length silence_periods 0 [] = Ok (cursor, cuts) ->
  snd (get_audio_duration engine input_file) = Ok D ->
  snd (segment_audio engine input_file output_dir target_segment_length
                     min_silence_duration silence_threshold) = Ok tt
  /\ commands (fst (segment_audio engine input_file output_dir target_segment_length
                                  min_silence_duration silence_threshold))
     = [find_silent_periods_command input_file min_silence_duration silence_threshold;
        get_audio_duration_command input_file]
       ++ (if cursor <? D then [get_audio_duration_command input_file] else [])
       ++ writer_commands input_file (output_subdir_of input_file output_dir)
                          (add_remainder D (cursor, cuts)).
Proof.
  intros Hfind Hcut Hdur.
  pose proof (find_silent_periods_commands engine input_file min_silence_duration
                silence_threshold) as Cf.
  pose proof (get_audio_duration_commands engine input_file) as Cd.
  unfold segment_audio.
  destruct (find_silent_periods engine input_file min_silence_duration
              silence_threshold) as [logf rf].
  destruct (get_audio_duration engine input_file) as [logd rd].
  cbn [fst snd] in Hfind, Hdur, Cf, Cd. subst rf rd.
  rewrite (bind_ok (emit _) _ _ tt eq_refl).
  rewrite (bind_ok _ _ _ _ eq_refl). cbn iota.
  rewrite Hcut. unfold lift. rewrite (bind_ok _ _ _ (cursor, cuts) eq_refl).
  cbn iota. rewrite (bind_ok _ _ _ _ eq_refl).
  set (subdir := output_subdir_of input_file output_dir).
  unfold add_remainder, writer_commands, numbered.
  destruct (cursor <? D).
  - rewrite (bind_ok (logd, Ok D) _ _ _ eq_refl).
    cbn [ret fst snd]. rewrite (bind_ok _ _ _ (cuts ++ [(cursor, D)]) eq_refl).
    destruct (write_segments_commands engine input_file subdir
                (String.length (Text.str_nat (List.length (cuts ++ [(cursor, D)]))))
                (cuts ++ [(cursor, D)]) 1) as [Hw Hok].
    cbn [fst snd]. split; [exact Hok|].
    rewrite !commands_app, Cf, Cd, Hw. reflexivity.
  - rewrite (bind_ok (ret cuts) _ [] cuts eq_refl).
    destruct (write_segments_commands engine input_file subdir
                (String.length (Text.str_nat (List.length cuts))) cuts 1) as [Hw Hok].
    cbn [fst snd]. split; [exact Hok|].
    rewrite !commands_app, Cf, Cd, Hw. reflexivity.
Qed.

(** X13: a run whose detection and probe succeed ends without an exception
    and runs these commands and no other: the detection, the probe once or
    twice, then one writer command for each segment of the plan, in the
    order of the plan. *)
Theorem segment_audio_trace (input_file output_dir : string)
    (target_segment_length : Z) (min_silence_duration : float)
    (silence_threshold : Z) (silence_periods : list silence)
    (D : float) (plan : list segment) :
  snd (find_silent_periods engine input_file min_silence_duration silence_threshold)
  = Ok (Some silence_periods) ->
  snd (get_audio_duration engine input_file) = Ok D ->
  plan_segments silence_periods D target_segment_length = Ok plan ->
  snd (segment_audio engine input_file output_dir target_segment_length
                     min_silence_duration silence_threshold) = Ok tt
  /\ exists probes,
       (probes = [get_audio_duration_command input_file]
        \/ probes = [get_audio_duration_command input_file;
                     get_audio_duration_command input_file])
       /\ commands (fst (segment_audio engine input_file output_dir
                                       target_segment_length min_silence_duration
                                       silence_threshold))
          = find_silent_periods_command input_file min_silence_duration
                                        silence_threshold
            :: probes
            ++ writer_commands input_file (output_subdir_of input_file output_dir) plan.
Proof.
  intros Hfind Hdur Hplan. unfold plan_segments in Hplan.
  destruct (cut_loop target_segment_length silence_periods 0 [])
    as [[c cuts]|e] eqn:Hcut; [|discriminate].
  cbn [rbind] in Hplan. injection Hplan as <-.
  destruct (segment_audio_planned_commands input_file output_dir target_segment_length
              min_silence_duration silence_threshold silence_periods c cuts D
              Hfind Hcut Hdur) as [Hok Hc].
  split; [exact Hok|]. rewrite Hc. unfold add_remainder.
  destruct (c <? D) eqn:Hlt.
  - exists [get_audio_duration_command input_file; get_audio_duration_command input_file].
    split; [now right | reflexivity].
  - exists [get_audio_duration_command input_file].
    split; [now left | reflexivity].
Qed.

(** A time that is not below zero. *)
Lemma float_nonneg_not_lt (x : float) : (0 <=? x) = true -> (x <? 0) = false.
Proof.
  rewrite leb_spec, ltb_spec. unfold SFleb, SFltb.
  change (Prim2SF 0) with (S754_zero false).
  destruct (Prim2SF x) as [s|s| |s m e]; cbn; try reflexivity;
    destruct s; cbn; congruence.
Qed.

(** X14: when the probe fails, the duration is taken as 0, and for silences
    that do not end before 0 the part of the file after the last cut is not
    written: the run writes the cuts at silences and nothing more, so a file
    without a cut gives no output file. *)
Theorem probe_failure_drops_remainder (input_file output_dir : string)
    (target_segment_length : Z) (min_silence_duration : float)
    (silence_threshold : Z) (silence_periods : list silence)
    (cursor : float) (cuts : list segment) :
  returncode (engine (get_audio_duration_command input_file)) <> 0%Z ->
  snd (find_silent_periods engine input_file min_silence_duration silence_threshold)
  = Ok (Some silence_periods) ->
  Forall (fun s => (0 <=? end_ s) = true) silence_periods ->
  cut_loop target_segment_length silence_periods 0 [] = Ok (cursor, cuts) ->
  snd (segment_audio engine input_file output_dir target_segment_length
                     min_silence_duration silence_threshold) = Ok tt
  /\ commands (fst (segment_audio engine input_file output_dir target_segment_length
                                  min_silence_duration silence_threshold))
     = [find_silent_periods_command input_file min_silence_duration silence_threshold;
        get_audio_duration_command input_file]
       ++ writer_commands input_file (output_subdir_of input_file output_dir) cuts.
Proof.
  intros Hprobe Hfind Hends Hcut.
  pose proof (get_audio_duration_failure input_file Hprobe) as Hdur.
  apply (f_equal snd) in Hdur. cbn [snd] in Hdur.
  destruct (segment_audio_planned_commands input_file output_dir target_segment_length
              min_silence_duration silence_threshold silence_periods cursor cuts 0
              Hfind Hcut Hdur) as [Hok Hc].
  split; [exact Hok|]. rewrite Hc. unfold add_remainder.
  assert (Hlt : (cursor <? 0) = false).
  { apply float_nonneg_not_lt.
    destruct (cut_loop_ok_fold target_segment_length silence_periods 0 []
                (cursor, cuts) Hcut) as [t Ht].
    pose proof (cut_fold_cursor t silence_periods 0 []) as Hcur.
    rewrite <- Ht in Hcur. cbn [fst] in Hcur.
    destruct Hcur as [->|[s [Hin ->]]]; [reflexivity|].
    rewrite Forall_forall in Hends. exact (Hends s Hin). }
  rewrite Hlt. reflexivity.
Qed.

(** X15: a target length too large for a float stops the run with
    OverflowError as soon as a silence has been detected: the detection is
    the only command run, nothing is probed or written. *)
Theorem segment_audio_overflow (input_file output_dir : string)
    (target_segment_length : Z) (min_silence_duration : float)
    (silence_threshold : Z) (s : silence) (rest : list silence) (e : exn) :
  snd (find_silent_periods engine input_file min_silence_duration silence_threshold)
  = Ok (Some (s :: rest)) ->
  float_of_int target_segment_length = Raise e ->
  snd (segment_audio engine input_file output_dir target_segment_length
                     min_silence_duration silence_threshold) = Raise OverflowError
  /\ commands (fst (segment_audio engine input_file output_dir target_segment_length
                                  min_silence_duration silence_threshold))
     = [find_silent_periods_command input_file min_silence_duration silence_threshold].
Proof.
  intros Hfind Hl.
  pose proof (float_of_int_raise target_segment_length e Hl) as ->.
  pose proof (find_silent_periods_commands engine input_file min_silence_duration
                silence_threshold) as Cf.
  unfold segment_audio.
  destruct (find_silent_periods engine input_file min_silence_duration
              silence_threshold) as [logf rf].
  cbn [fst snd] in Hfind, Cf. subst rf.
  rewrite (bind_ok (emit _) _ _ tt eq_refl).
  rewrite (bind_ok _ _ _ _ eq_refl). cbn iota.
  cbn [cut_loop]. unfold int_mul_float. rewrite Hl. cbn [rbind lift bind fst snd].
  split; [reflexivity|]. cbn [commands]. rewrite ?commands_app, ?app_nil_r, Cf. reflexivity.
Qed.

(** X16: a run that ends with an exception has written nothing: the
    commands it ran are the detection alone, or the detection and one probe;
    no writer command is among them. *)
Theorem segment_audio_raise_writes_nothing (input_file output_dir : string)
    (target_segment_length : Z) (min_silence_duration : float)
    (silence_threshold : Z) (e : exn) :
  snd (segment_audio engine input_file output_dir target_segment_length
                     min_silence_duration silence_threshold) = Raise e ->
  let detection :=
    find_silent_periods_command input_file min_silence_duration silence_threshold in
  let probe := get_audio_duration_command input_file in
  commands (fst (segment_audio engine input_file output_dir target_segment_length
                               min_silence_duration silence_threshold))
  = [detection]
  \/ commands (fst (segment_audio engine input_file output_dir target_segment_length
                                  min_silence_duration silence_threshold))
     = [detection; probe].
Proof.
  intros Hraise detection probe.
  pose proof (find_silent_periods_commands engine input_file min_silence_duration
                silence_threshold) as Cf.
  pose proof (get_audio_duration_commands engine input_file) as Cd.
  fold detection in Cf. fold probe in Cd.
  revert Hraise. unfold segment_audio.
  rewrite (bind_ok (emit _) _ _ tt eq_refl).
  destruct (find_silent_periods engine input_file min_silence_duration
              silence_threshold) as [logf [[silence_periods|]|ef]];
    cbn [fst snd] in Cf.
  - rewrite (bind_ok _ _ _ _ eq_refl). cbn iota.
    destruct (cut_loop target_segment_length silence_periods 0 []) as [[c cuts]|ec].
    + unfold lift. rewrite (bind_ok _ _ _ (c, cuts) eq_refl). cbn iota.
      destruct (get_audio_duration engine input_file) as [logd [D|ed]];
        cbn [fst snd] in Cd.
      * rewrite (bind_ok _ _ _ _ eq_refl).
        destruct (c <? D).
        -- rewrite (bind_ok (logd, Ok D) _ _ _ eq_refl). cbn [ret fst snd].
           rewrite (bind_ok _ _ _ (cuts ++ [(c, D)]) eq_refl). cbn [fst snd].
           destruct (write_segments_commands engine input_file
                       (output_subdir_of input_file output_dir)
                       (String.length (Text.str_nat (List.length (cuts ++ [(c, D)]))))
                       (cuts ++ [(c, D)]) 1) as [_ ->].
           discriminate.
        -- rewrite (bind_ok (ret cuts) _ [] cuts eq_refl). cbn [fst snd].
           destruct (write_segments_commands engine input_file
                       (output_subdir_of input_file output_dir)
                       (String.length (Text.str_nat (List.length cuts))) cuts 1)
             as [_ ->].
           discriminate.
      * intros _. right. cbn [bind fst snd app].
        cbn [commands]. rewrite ?commands_app, Cf, Cd. reflexivity.
    + intros _. left. cbn [lift bind fst snd app].
      cbn [commands]. rewrite ?commands_app, ?app_nil_r, Cf. reflexivity.
  - rewrite (bind_ok _ _ _ _ eq_refl). cbn iota.
    destruct (get_audio_duration engine input_file) as [logd [D|ed]];
      cbn [fst snd] in Cd.
    + rewrite (bind_ok _ _ _ _ eq_refl).
      destruct (create_segment_some engine input_file
                  (path_join (output_subdir_of input_file output_dir)
                             [input_file; ".mp3"%string]) 0 D)
        as (ok & log & Hc & _).
      rewrite (bind_ok _ _ _ _ Hc). cbn [ret fst snd]. discriminate.
    + intros _. right. cbn [bind fst snd app].
      cbn [commands]. rewrite ?commands_app, Cf, Cd. reflexivity.
  - intros _. left. cbn [bind fst snd app].
    cbn [commands]. rewrite ?commands_app, ?app_nil_r, Cf. reflexivity.
Qed.

(** X17: when the engine reports no silence, a file of positive duration
    is written as one file, [1.mp3], from 0 to its duration, whatever the
    target length: the run is the detection, two probes and that one
    writer command. *)
Theorem no_silence_single_file (input_file output_dir : string)
    (target_segment_length : Z) (min_silence_duration : float)
    (silence_threshold : Z) (D : float) :
  let detection :=
    find_silent_periods_command input_file min_silence_duration silence_threshold in
  returncode (engine detection) = 0%Z ->
  Forall (fun line => Text.py_in "silencedetect" line = false)
         (stderr_lines (engine detection)) ->
  snd (get_audio_duration engine input_file) = Ok D ->
  (0 <? D) = true ->
  snd (segment_audio engine input_file output_dir target_segment_length
                     min_silence_duration silence_threshold) = Ok tt
  /\ commands (fst (segment_audio engine input_file output_dir target_segment_length
                                  min_silence_duration silence_threshold))
     = [detection;
        get_audio_duration_command input_file;
        get_audio_duration_command input_file;
        create_segment_command input_file
          (path_join (output_subdir_of input_file output_dir) ["1.mp3"%string])
          0 (Some D)].
Proof.
  intros detection Hz Hlines Hdur HD.
  assert (Hfind : snd (find_silent_periods engine input_file min_silence_duration
                                           silence_threshold) = Ok (Some [])).
  { unfold find_silent_periods, subprocess_run, bind, emit, ret, lift.
    fold detection. rewrite Hz. cbn [Z.eqb]. cbv beta iota zeta.
    unfold parse_silence_periods.
    now rewrite (scan_lines_without_silencedetect (None, []) _ Hlines). }
  destruct (segment_audio_planned_commands input_file output_dir target_segment_length
              min_silence_duration silence_threshold [] 0 [] D Hfind eq_refl Hdur)
    as [Hok Hc].
  split; [exact Hok|]. rewrite Hc. unfold add_remainder. rewrite HD. reflexivity.
Qed.

End RunMore.

(** * The names of the output files *)

Section Names.

Open Scope nat_scope.

Lemma digit_code (d : nat) : d < 10 -> nat_of_ascii (Text.digit d) = 48 + d.
Proof. intros H. unfold Text.digit. apply nat_ascii_embedding. lia. Qed.

Lemma read_digits_app (s t : string) :
  forall acc, read_digits acc (s ++ t) = read_digits (read_digits acc s) t.
Proof. induction s as [|c s IH]; intros acc; cbn; [reflexivity | apply IH]. Qed.

Lemma read_digits_shift (t : string) :
  forall acc, read_digits acc t = acc * 10 ^ String.length t + read_digits 0 t.
Proof.
  induction t as [|c t IH]; intros acc.
  - cbn. lia.
  - cbn [read_digits String.length]. rewrite IH.
    rewrite (IH (10 * 0 + (nat_of_ascii c - 48))). rewrite Nat.pow_succ_r'. lia.
Qed.

(** Reading the digits of a number gives the number back. *)
Lemma read_digits_digits (fuel : nat) :
  forall n, n < fuel -> read_digits 0 (Text.digits fuel n) = n.
Proof.
  induction fuel as [|fuel IH]; intros n Hn; [lia|].
  cbn [Text.digits]. destruct (Nat.ltb_spec n 10) as [Hlt|Hge].
  - cbn [read_digits]. rewrite digit_code by exact Hlt. lia.
  - rewrite read_digits_app. cbn [read_digits].
    assert (n / 10 < n) by (apply Nat.div_lt; lia).
    rewrite IH by lia.
    rewrite digit_code by (apply Nat.mod_upper_bound; lia).
    pose proof (Nat.div_mod_eq n 10). lia.
Qed.

Lemma read_digits_zeros (k : nat) (s : string) :
  read_digits 0 (Text.zeros k ++ s) = read_digits 0 s.
Proof. induction k as [|k IH]; [reflexivity | exact IH]. Qed.

Lemma read_digits_format (width n : nat) :
  read_digits 0 (Text.format_0d width n) = n.
Proof.
  unfold Text.format_0d, Text.str_nat. rewrite read_digits_zeros.
  apply read_digits_digits. lia.
Qed.

(** X18: two segment numbers never share a file name, whatever the width:
    no segment of a run is written over another. *)
Theorem segment_names_distinct (num_digits i j : nat) :
  i <> j -> segment_name num_digits i <> segment_name num_digits j.
Proof.
  unfold segment_name. intros Hij H. apply Hij.
  apply (f_equal (read_digits 0)) in H.
  rewrite !read_digits_app, !read_digits_format in H.
  rewrite (read_digits_shift ".mp3" i), (read_digits_shift ".mp3" j) in H.
  apply Nat.add_cancel_r in H. apply Nat.mul_cancel_r in H; [exact H|].
  apply Nat.pow_nonzero. discriminate.
Qed.

Lemma all_digits_app (s t : string) :
  all_digits (s ++ t) = all_digits s && all_digits t.
Proof.
  induction s as [|c s IH]; [reflexivity|].
  cbn [append all_digits]. rewrite IH. now rewrite andb_assoc.
Qed.

Lemma all_digits_zeros (k : nat) : all_digits (Text.zeros k) = true.
Proof. induction k as [|k IH]; [reflexivity | exact IH]. Qed.

Lemma all_digits_digit (d : nat) :
  d < 10 -> all_digits (String (Text.digit d) EmptyString) = true.
Proof.
  intros H. cbn [all_digits]. rewrite digit_code by exact H.
  rewrite andb_true_r. apply andb_true_intro.
  split; [apply Nat.leb_le | apply Nat.leb_le]; lia.
Qed.

Lemma all_digits_digits (fuel : nat) :
  forall n, all_digits (Text.digits fuel n) = true.
Proof.
  induction fuel as [|fuel IH]; intros n; [reflexivity|].
  cbn [Text.digits]. destruct (Nat.ltb_spec n 10) as [Hlt|Hge].
  - now apply all_digits_digit.
  - rewrite all_digits_app, IH.
    apply all_digits_digit. apply Nat.mod_upper_bound. lia.
Qed.

Lemma all_digits_format (width n : nat) :
  all_digits (Text.format_0d width n) = true.
Proof.
  unfold Text.format_0d, Text.str_nat.
  now rewrite all_digits_app, all_digits_zeros, all_digits_digits.
Qed.

Lemma read_digits_bound (s : string) :
  all_digits s = true -> read_digits 0 s < 10 ^ String.length s.
Proof.
  induction s as [|c s IH]; intros H.
  - cbn. lia.
  - cbn [all_digits] in H. apply andb_prop in H. destruct H as [Hc Hs].
    apply andb_prop in Hc. destruct Hc as [H1 H2].
    apply Nat.leb_le in H1, H2. specialize (IH Hs).
    cbn [read_digits String.length]. rewrite read_digits_shift, Nat.pow_succ_r'.
    nia.
Qed.

Lemma ascii_compare_nat (c1 c2 : ascii) :
  Ascii.compare c1 c2 = Nat.compare (nat_of_ascii c1) (nat_of_ascii c2).
Proof.
  unfold Ascii.compare, nat_of_ascii.
  now rewrite <- N2Z.inj_compare, <- Nat2Z.inj_compare, !N_nat_Z.
Qed.

(** Strings of digits of one length are in the order of their numbers. *)
Lemma compare_digits (s1 : string) :
  forall s2,
    all_digits s1 = true -> all_digits s2 = true ->
    String.length s1 = String.length s2 ->
    String.compare s1 s2 = Nat.compare (read_digits 0 s1) (read_digits 0 s2).
Proof.
  induction s1 as [|c1 s1 IH]; intros [|c2 s2] H1 H2 Hlen; try discriminate.
  - reflexivity.
  - cbn [all_digits] in H1, H2.
    apply andb_prop in H1, H2. destruct H1 as [Hc1 Hs1], H2 as [Hc2 Hs2].
    apply andb_prop in Hc1, Hc2. destruct Hc1 as [A1 B1], Hc2 as [A2 B2].
    apply Nat.leb_le in A1, B1, A2, B2.
    cbn [String.length] in Hlen. injection Hlen as Hlen.
    pose proof (read_digits_bound s1 Hs1) as Bd1.
    pose proof (read_digits_bound s2 Hs2) as Bd2.
    cbn [String.compare read_digits].
    rewrite (read_digits_shift s1), (read_digits_shift s2), <- Hlen.
    rewrite <- Hlen in Bd2.
    rewrite ascii_compare_nat, (IH s2 Hs1 Hs2 Hlen).
    set (k := 10 ^ String.length s1) in *.
    set (v1 := read_digits 0 s1) in *. set (v2 := read_digits 0 s2) in *.
    destruct (Nat.compare_spec (nat_of_ascii c1) (nat_of_ascii c2)) as [He|Hl|Hg].
    + rewrite He.
      destruct (Nat.compare_spec v1 v2) as [E|Lo|Hi]; symmetry.
      * apply Nat.compare_eq_iff. lia.
      * apply Nat.compare_lt_iff. lia.
      * apply Nat.compare_gt_iff. lia.
    + symmetry. apply Nat.compare_lt_iff. nia.
    + symmetry. apply Nat.compare_gt_iff. nia.
Qed.

Lemma string_compare_refl (s : string) : String.compare s s = Eq.
Proof.
  induction s as [|c s IH]; [reflexivity|].
  cbn [String.compare]. unfold Ascii.compare. now rewrite N.compare_refl.
Qed.

(** A common ending does not change the order of strings of one length. *)
Lemma compare_app_same_length (t : string) (s1 : string) :
  forall s2,
    String.length s1 = String.length s2 ->
    String.compare s1 s2 <> Eq ->
    String.compare (s1 ++ t) (s2 ++ t) = String.compare s1 s2.
Proof.
  induction s1 as [|c1 s1 IH]; intros [|c2 s2] Hlen Hne; try discriminate.
  - now contradiction Hne.
  - cbn [String.length] in Hlen. injection Hlen as Hlen.
    cbn [append String.compare] in *.
    destruct (Ascii.compare c1 c2); [now apply IH | reflexivity | reflexivity].
Qed.

(** X19: the names sort as the segments play: when the width holds the
    larger number, a smaller segment number gives a name that comes first in
    the order of strings. *)
Theorem segment_names_sorted (num_digits i j : nat) :
  i < j ->
  String.length (Text.str_nat j) <= num_digits ->
  String.compare (segment_name num_digits i) (segment_name num_digits j) = Lt.
Proof.
  intros Hij Hw. unfold segment_name.
  assert (Hi : String.length (Text.str_nat i) <= num_digits).
  { pose proof (str_nat_length_mono i j ltac:(lia)). lia. }
  assert (Hcmp : String.compare (Text.format_0d num_digits i)
                                (Text.format_0d num_digits j) = Lt).
  { rewrite compare_digits.
    - rewrite !read_digits_format. now apply Nat.compare_lt_iff.
    - apply all_digits_format.
    - apply all_digits_format.
    - now rewrite !format_0d_length. }
  rewrite compare_app_same_length.
  - exact Hcmp.
  - now rewrite !format_0d_length.
  - rewrite Hcmp. discriminate.
Qed.

End Names.

(** * More concrete runs *)

Section RunsMore.

#[local] Existing Instance Sample.builtins.

Open Scope float_scope.

Lemma plan_segments_total_witness :
  (Z.abs 300 < 2 ^ 53)%Z
  /\ exists plan, plan_segments Sample.silences 700 300 = Ok plan.
Proof.
  split; [reflexivity|].
  apply (plan_segments_total Sample.silences 700 300). reflexivity.
Defined.

Lemma plan_cuts_at_silence_ends_witness :
  plan_segments Sample.silences 700 300 = Ok Sample.plan
  /\ In (296, 599.5) Sample.plan
  /\ (fst (296, 599.5) = 0
      \/ exists s, In s Sample.silences /\ fst (296, 599.5) = end_ s)
  /\ (snd (296, 599.5) = 700
      \/ exists s, In s Sample.silences /\ snd (296, 599.5) = end_ s).
Proof.
  split; [reflexivity|]. split; [right; left; reflexivity|].
  apply (plan_cuts_at_silence_ends Sample.silences 700 300 Sample.plan eq_refl).
  right. left. reflexivity.
Defined.

Lemma plan_length_bound_witness :
  plan_segments Sample.silences 700 300 = Ok Sample.plan
  /\ (List.length Sample.plan <= List.length Sample.silences + 1)%nat.
Proof.
  split; [reflexivity|].
  apply (plan_length_bound Sample.silences 700 300 Sample.plan). reflexivity.
Defined.

Lemma plan_ignores_starts_witness :
  map end_ Sample.silences = map end_ Cases.moved_silences
  /\ plan_segments Sample.silences 700 300 = plan_segments Cases.moved_silences 700 300.
Proof.
  split; [reflexivity|].
  apply (plan_ignores_starts Sample.silences Cases.moved_silences 700 300). reflexivity.
Defined.

Lemma plan_single_when_short_witness :
  float_of_int 300 = Ok 300
  /\ Forall (fun s => (300 * point_eight <=? end_ s - 0) = false) Cases.early_silences
  /\ (0 <? 100) = true
  /\ plan_segments Cases.early_silences 100 300 = Ok [(0, 100)].
Proof.
  split; [reflexivity|]. split; [repeat constructor|]. split; [reflexivity|].
  apply (plan_single_when_short Cases.early_silences 100 300 300);
    [reflexivity | repeat constructor | reflexivity].
Defined.

Lemma plan_keeps_earlier_cuts_witness :
  cut_loop 300 [{| start := 295; end_ := 296 |}] 0 [] = Ok (296, [(0, 296)])
  /\ plan_segments ([{| start := 295; end_ := 296 |}]
                    ++ [{| start := 598; end_ := 599.5 |}]) 700 300
     = Ok Sample.plan
  /\ exists more, Sample.plan = [(0, 296)] ++ more.
Proof.
  split; [reflexivity|]. split; [reflexivity|].
  apply (plan_keeps_earlier_cuts [{| start := 295; end_ := 296 |}]
           [{| start := 598; end_ := 599.5 |}] 700 300 296 [(0, 296)] Sample.plan);
    reflexivity.
Defined.

Lemma find_silent_periods_key_not_a_word_witness :
  returncode
    (Cases.glued_engine (find_silent_periods_command Sample.input_file 0.5 (-30)))
  = 0%Z
  /\ stderr_lines
       (Cases.glued_engine (find_silent_periods_command Sample.input_file 0.5 (-30)))
     = Cases.one_silence ++ Cases.glued_line :: []
  /\ scan_lines (None, []) Cases.one_silence
     = Ok (None, [{| start := 295; end_ := 296 |}])
  /\ is_start_line Cases.glued_line = true
  /\ Text.index "silence_start:" (Text.split Cases.glued_line) = None
  /\ find_silent_periods Cases.glued_engine Sample.input_file 0.5 (-30)
     = ([Run (find_silent_periods_command Sample.input_file 0.5 (-30))],
        Raise ValueError).
Proof.
  split; [reflexivity|]. split; [reflexivity|]. split; [reflexivity|].
  split; [reflexivity|]. split; [reflexivity|].
  apply (find_silent_periods_key_not_a_word Cases.glued_engine Sample.input_file
           0.5 (-30) Cases.one_silence [] Cases.glued_line
           (None, [{| start := 295; end_ := 296 |}])); reflexivity.
Defined.

Lemma find_silent_periods_no_value_witness :
  returncode
    (Cases.cut_engine (find_silent_periods_command Sample.input_file 0.5 (-30)))
  = 0%Z
  /\ stderr_lines
       (Cases.cut_engine (find_silent_periods_command Sample.input_file 0.5 (-30)))
     = Cases.one_silence ++ Cases.cut_line :: []
  /\ scan_lines (None, []) Cases.one_silence
     = Ok (None, [{| start := 295; end_ := 296 |}])
  /\ is_start_line Cases.cut_line = true
  /\ Text.index "silence_start:" (Text.split Cases.cut_line) = Some 3%nat
  /\ List.length (Text.split Cases.cut_line) = 4%nat
  /\ find_silent_periods Cases.cut_engine Sample.input_file 0.5 (-30)
     = ([Run (find_silent_periods_command Sample.input_file 0.5 (-30))],
        Raise IndexError).
Proof.
  split; [reflexivity|]. split; [reflexivity|]. split; [reflexivity|].
  split; [reflexivity|]. split; [reflexivity|]. split; [reflexivity|].
  apply (find_silent_periods_no_value Cases.cut_engine Sample.input_file
           0.5 (-30) Cases.one_silence [] Cases.cut_line
           (None, [{| start := 295; end_ := 296 |}]) 3); reflexivity.
Defined.

Lemma parse_periods_bounded_witness :
  parse_silence_periods Sample.detection_lines = Ok Sample.silences
  /\ (List.length Sample.silences
      <= count_lines is_start_line Sample.detection_lines)%nat
  /\ (List.length Sample.silences
      <= count_lines is_end_line Sample.detection_lines)%nat.
Proof.
  split; [reflexivity|].
  apply (parse_periods_bounded Sample.detection_lines Sample.silences). reflexivity.
Defined.

Lemma parse_keeps_earlier_periods_witness :
  parse_silence_periods Cases.one_silence = Ok [{| start := 295; end_ := 296 |}]
  /\ parse_silence_periods (Cases.one_silence ++ skipn 2 Sample.detection_lines)
     = Ok Sample.silences
  /\ exists more, Sample.silences = [{| start := 295; end_ := 296 |}] ++ more.
Proof.
  split; [reflexivity|]. split; [reflexivity|].
  apply (parse_keeps_earlier_periods Cases.one_silence (skipn 2 Sample.detection_lines)
           [{| start := 295; end_ := 296 |}] Sample.silences); reflexivity.
Defined.

Lemma segment_audio_trace_witness :
  snd (find_silent_periods (Sample.engine "") Sample.input_file 0.5 (-30))
  = Ok (Some Sample.silences)
  /\ snd (get_audio_duration (Sample.engine "") Sample.input_file) = Ok 700
  /\ plan_segments Sample.silences 700 300 = Ok Sample.plan
  /\ snd (segment_audio (Sample.engine "") Sample.input_file Sample.output_dir
                        300 0.5 (-30)) = Ok tt
  /\ exists probes,
       (probes = [get_audio_duration_command Sample.input_file]
        \/ probes = [get_audio_duration_command Sample.input_file;
                     get_audio_duration_command Sample.input_file])
       /\ commands (fst (segment_audio (Sample.engine "") Sample.input_file
                                       Sample.output_dir 300 0.5 (-30)))
          = find_silent_periods_command Sample.input_file 0.5 (-30)
            :: probes
            ++ writer_commands Sample.input_file
                 (output_subdir_of Sample.input_file Sample.output_dir) Sample.plan.
Proof.
  split; [reflexivity|]. split; [reflexivity|]. split; [reflexivity|].
  apply (segment_audio_trace (Sample.engine "") Sample.input_file Sample.output_dir
           300 0.5 (-30) Sample.silences 700 Sample.plan); reflexivity.
Defined.

Lemma probe_failure_drops_remainder_witness :
  returncode (Cases.unprobed_engine (get_audio_duration_command Sample.input_file))
  <> 0%Z
  /\ snd (find_silent_periods Cases.unprobed_engine Sample.input_file 0.5 (-30))
     = Ok (Some Sample.silences)
  /\ Forall (fun s => (0 <=? end_ s) = true) Sample.silences
  /\ cut_loop 300 Sample.silences 0 [] = Ok (599.5, [(0, 296); (296, 599.5)])
  /\ snd (segment_audio Cases.unprobed_engine Sample.input_file Sample.output_dir
                        300 0.5 (-30)) = Ok tt
  /\ commands (fst (segment_audio Cases.unprobed_engine Sample.input_file
                                  Sample.output_dir 300 0.5 (-30)))
     = [find_silent_periods_command Sample.input_file 0.5 (-30);
        get_audio_duration_command Sample.input_file]
       ++ writer_commands Sample.input_file
            (output_subdir_of Sample.input_file Sample.output_dir)
            [(0, 296); (296, 599.5)].
Proof.
  split; [discriminate|]. split; [reflexivity|]. split; [repeat constructor|].
  split; [reflexivity|].
  apply (probe_failure_drops_remainder Cases.unprobed_engine Sample.input_file
           Sample.output_dir 300 0.5 (-30) Sample.silences 599.5
           [(0, 296); (296, 599.5)]);
    [discriminate | reflexivity | repeat constructor | reflexivity].
Defined.

Lemma segment_audio_overflow_witness :
  snd (find_silent_periods (Sample.engine "") Sample.input_file 0.5 (-30))
  = Ok (Some ({| start := 295; end_ := 296 |} :: [{| start := 598; end_ := 599.5 |}]))
  /\ float_of_int (2 ^ 1024) = Raise OverflowError
  /\ snd (segment_audio (Sample.engine "") Sample.input_file Sample.output_dir
                        (2 ^ 1024) 0.5 (-30)) = Raise OverflowError
  /\ commands (fst (segment_audio (Sample.engine "") Sample.input_file
                                  Sample.output_dir (2 ^ 1024) 0.5 (-30)))
     = [find_silent_periods_command Sample.input_file 0.5 (-30)].
Proof.
  split; [reflexivity|]. split; [reflexivity|].
  apply (segment_audio_overflow (Sample.engine "") Sample.input_file Sample.output_dir
           (2 ^ 1024) 0.5 (-30) {| start := 295; end_ := 296 |}
           [{| start := 598; end_ := 599.5 |}] OverflowError); reflexivity.
Defined.

Lemma segment_audio_raise_writes_nothing_witness :
  snd (segment_audio Cases.unreadable_engine Sample.input_file Sample.output_dir
                     300 0.5 (-30)) = Raise ValueError
  /\ (commands (fst (segment_audio Cases.unreadable_engine Sample.input_file
                                   Sample.output_dir 300 0.5 (-30)))
      = [find_silent_periods_command Sample.input_file 0.5 (-30)]
      \/ commands (fst (segment_audio Cases.unreadable_engine Sample.input_file
                                      Sample.output_dir 300 0.5 (-30)))
         = [find_silent_periods_command Sample.input_file 0.5 (-30);
            get_audio_duration_command Sample.input_file]).
Proof.
  split; [reflexivity|].
  apply (segment_audio_raise_writes_nothing Cases.unreadable_engine Sample.input_file
           Sample.output_dir 300 0.5 (-30) ValueError). reflexivity.
Defined.

Lemma segment_names_distinct_witness :
  3%nat <> 12%nat /\ segment_name 2 3 <> segment_name 2 12.
Proof.
  split; [discriminate|]. apply (segment_names_distinct 2 3 12). discriminate.
Defined.

Lemma segment_names_sorted_witness :
  (9 < 10)%nat
  /\ (String.length (Text.str_nat 10) <= 2)%nat
  /\ String.compare (segment_name 2 9) (segment_name 2 10) = Lt.
Proof.
  split; [repeat constructor|]. split; [repeat constructor|].
  apply (segment_names_sorted 2 9 10); repeat constructor.
Defined.

Lemma parse_periods_from_lines_witness :
  parse_silence_periods Sample.detection_lines = Ok Sample.silences
  /\ In {| start := 598; end_ := 599.5 |} Sample.silences
  /\ (exists line, In line Sample.detection_lines /\ is_start_line line = true
                   /\ marker_value "silence_start:" line = Ok 598)
  /\ (exists line, In line Sample.detection_lines /\ is_end_line line = true
                   /\ marker_value "silence_end:" line = Ok 599.5).
Proof.
  split; [reflexivity|]. split; [right; left; reflexivity|].
  apply (parse_periods_from_lines Sample.detection_lines Sample.silences
           {| start := 598; end_ := 599.5 |}); [reflexivity | right; left; reflexivity].
Defined.

Lemma no_silence_single_file_witness :
  returncode
    (Cases.quiet_engine (find_silent_periods_command Sample.input_file 0.5 (-30)))
  = 0%Z
  /\ Forall (fun line => Text.py_in "silencedetect" line = false)
            (stderr_lines
               (Cases.quiet_engine
                  (find_silent_periods_command Sample.input_file 0.5 (-30))))
  /\ snd (get_audio_duration Cases.quiet_engine Sample.input_file) = Ok 700
  /\ (0 <? 700) = true
  /\ snd (segment_audio Cases.quiet_engine Sample.input_file Sample.output_dir
                        300 0.5 (-30)) = Ok tt
  /\ commands (fst (segment_audio Cases.quiet_engine Sample.input_file
                                  Sample.output_dir 300 0.5 (-30)))
     = [find_silent_periods_command Sample.input_file 0.5 (-30);
        get_audio_duration_command Sample.input_file;
        get_audio_duration_command Sample.input_file;
        create_segment_command Sample.input_file
          (path_join (output_subdir_of Sample.input_file Sample.output_dir)
                     ["1.mp3"%string])
          0 (Some 700)].
Proof.
  split; [reflexivity|]. split; [repeat constructor|]. split; [reflexivity|].
  split; [reflexivity|].
  apply (no_silence_single_file Cases.quiet_engine Sample.input_file Sample.output_dir
           300 0.5 (-30) 700);
    [reflexivity | repeat constructor | reflexivity | reflexivity].
Defined.

End RunsMore.
